(** * Structured-generation reliability pipeline: [backend/lib/generator.ts]

    A shallow embedding of the truncation detector ([isTruncated]), the
    recursive truncation check ([validateNoTruncation]), the constrained
    generator ([generateWithSchema]) and the retry controller
    ([generateWithRetry]), followed by the properties of the specification
    that concern them.

    Conventions of the embedding.
    - A JavaScript string is a [string]: a sequence of code units, here the
      code units 0..255.  The white space of [String.prototype.trim] and of
      the regular-expression class [\s] coincide; in this range they are
      TAB, LF, VT, FF, CR, SPACE and NBSP.
    - A parsed JSON value is a [Json] tree.  The entries of an object are
      kept in the order in which [Object.entries] enumerates them.
    - A synchronous function that may throw returns a [Result].
    - An [async] function is a state transformer over [State]: the state of
      the outside world (the model behind [session.prompt]) and the trace of
      the observable calls made so far.  [console.warn] output is not part
      of the trace.
    - The constructor of node-llama-cpp's [LlamaChatSession] is taken to
      return: the runs described are those in which the generator obtains
      its chat session. *)

From Stdlib Require Import String Ascii List Bool Arith NArith Lia QArith DecimalString.
Import ListNotations.

Local Open Scope string_scope.
Local Open Scope nat_scope.

(* ===================================================================== *)
(** ** Strings as JavaScript sees them *)
(* ===================================================================== *)

Module JsString.

(** The double-quote character, for the messages that quote a value. *)
Definition dquote : string := String (ascii_of_nat 34) EmptyString.

(** [WhiteSpace] and [LineTerminator] code units below 256: what [trim]
    strips and what [\s] matches. *)
Definition isWhiteSpace (c : ascii) : bool :=
  let n := N_of_ascii c in
  ((9 <=? n) && (n <=? 13) || (n =? 32) || (n =? 160))%N.

(** Character class [[a-z]]. *)
Definition isLower (c : ascii) : bool :=
  let n := N_of_ascii c in ((97 <=? n) && (n <=? 122))%N.

(** Character class [[A-Z]]. *)
Definition isUpper (c : ascii) : bool :=
  let n := N_of_ascii c in ((65 <=? n) && (n <=? 90))%N.

(** Character class [[a-zA-Z]]. *)
Definition isLetter (c : ascii) : bool := isLower c || isUpper c.

(** Character class [[0-9]]. *)
Definition isDigit (c : ascii) : bool :=
  let n := N_of_ascii c in ((48 <=? n) && (n <=? 57))%N.

(** Character class [\w], that is [[A-Za-z0-9_]]. *)
Definition isWordChar (c : ascii) : bool :=
  isLetter c || isDigit c || Ascii.eqb c "_".

(** Character class [[{[\]]]. *)
Definition isBracketClass (c : ascii) : bool :=
  Ascii.eqb c "{" || Ascii.eqb c "[" || Ascii.eqb c "]".

(** Character class [[{[]]. *)
Definition isOpenClass (c : ascii) : bool :=
  Ascii.eqb c "{" || Ascii.eqb c "[".

Fixpoint trimStart (s : string) : string :=
  match s with
  | EmptyString => EmptyString
  | String c rest => if isWhiteSpace c then trimStart rest else s
  end.

Fixpoint trimEnd (s : string) : string :=
  match s with
  | EmptyString => EmptyString
  | String c rest =>
      match trimEnd rest with
      | EmptyString => if isWhiteSpace c then EmptyString else String c EmptyString
      | kept => String c kept
      end
  end.

(** [s.trim()] *)
Definition trim (s : string) : string := trimEnd (trimStart s).

(** The code units of [s], last one first: every pattern of the detector
    is anchored at the end of the string. *)
Definition fromEnd (s : string) : list ascii := rev (list_ascii_of_string s).

Fixpoint dropWhile (p : ascii -> bool) (l : list ascii) : list ascii :=
  match l with
  | [] => []
  | c :: rest => if p c then dropWhile p rest else l
  end.

Fixpoint isPrefixOf (p l : list ascii) : bool :=
  match p, l with
  | [], _ => true
  | _ :: _, [] => false
  | a :: p', b :: l' => Ascii.eqb a b && isPrefixOf p' l'
  end.

(** [s.endsWith(suffix)] *)
Definition endsWith (s suffix : string) : bool :=
  isPrefixOf (fromEnd suffix) (fromEnd s).

(** [(s.match(/c/g) || []).length] for a single literal character [c]. *)
Fixpoint countChar (c : ascii) (s : string) : nat :=
  match s with
  | EmptyString => 0
  | String d rest => (if Ascii.eqb d c then 1 else 0) + countChar c rest
  end.

(** [s.includes(sub)] *)
Fixpoint includes (s sub : string) : bool :=
  String.prefix sub s
  || match s with
     | EmptyString => false
     | String _ rest => includes rest sub
     end.

(** Decimal rendering of a number inside a template literal. *)
Definition ofNat (n : nat) : string := NilZero.string_of_uint (Nat.to_uint n).

(** Truthiness of a string: the empty string is falsy. *)
Definition truthy (s : string) : bool := negb (s =? "")%string.

(** [a || b] on strings. *)
Definition orElse (a b : string) : string := if truthy a then a else b.

End JsString.
Import JsString.

(* ===================================================================== *)
(** ** Truncation detector *)
(* ===================================================================== *)

(** [/[a-zA-Z][{[\]]$/.test(s)] *)
Definition incompleteWordPattern (s : string) : bool :=
  match fromEnd s with
  | b :: a :: _ => isLetter a && isBracketClass b
  | _ => false
  end.

(** [/[a-z][{[\]]$/.test(s)] *)
Definition incompleteSentencePattern (s : string) : bool :=
  match fromEnd s with
  | b :: a :: _ => isLower a && isBracketClass b
  | _ => false
  end.

(** [s.match(/[{[]\s*$/)] is not null.  White space and the two opening
    characters are disjoint, so the match takes all the trailing white
    space. *)
Definition openThenSpacePattern (s : string) : bool :=
  match dropWhile isWhiteSpace (fromEnd s) with
  | b :: _ => isOpenClass b
  | [] => false
  end.

(** [/[a-zA-Z][{[\]]\s*$/.test(s)] *)
Definition incompleteWordEnd (s : string) : bool :=
  match dropWhile isWhiteSpace (fromEnd s) with
  | b :: a :: _ => isLetter a && isBracketClass b
  | _ => false
  end.

Definition isTruncated (text : string) : bool :=
  if negb (truthy text) || (String.length (trim text) =? 0) then false
  else
    let trimmed := trim text in
    if incompleteWordPattern trimmed then true
    else if incompleteSentencePattern trimmed then true
    else
      let openBraces := countChar "{" trimmed in
      let closeBraces := countChar "}" trimmed in
      let openBrackets := countChar "[" trimmed in
      let closeBrackets := countChar "]" trimmed in
      if ((closeBraces <? openBraces) || (closeBrackets <? openBrackets))
         && (endsWith trimmed "{" || endsWith trimmed "["
             || openThenSpacePattern trimmed)
      then true
      else if incompleteWordEnd trimmed then true
      else false.

(* ===================================================================== *)
(** ** Values, exceptions and the recursive truncation check *)
(* ===================================================================== *)

(** A parsed JSON value.  [JObject] lists the own enumerable properties in
    [Object.entries] order. *)
#[warning="-register-all"]
Inductive Json : Type :=
| JNull
| JBool (b : bool)
| JNumber (q : Q)
| JString (s : string)
| JArray (items : list Json)
| JObject (entries : list (string * Json)).

(** An [Error] object; only its [message] is ever read. *)
Record JsError : Type := mkError { message : string }.

(** Anything a [throw] can carry: an [Error] instance, or some other value
    of which only [String(value)] is ever read. *)
Inductive Thrown : Type :=
| ThrowError (e : JsError)
| ThrowValue (text : string).

(** [error instanceof Error] *)
Definition instanceofError (error : Thrown) : bool :=
  match error with ThrowError _ => true | ThrowValue _ => false end.

(** [error instanceof Error ? error.message : String(error)] *)
Definition messageOrString (error : Thrown) : string :=
  match error with ThrowError e => message e | ThrowValue text => text end.

(** [error instanceof Error ? error : new Error(String(error))] *)
Definition asError (error : Thrown) : JsError :=
  match error with ThrowError e => e | ThrowValue text => mkError text end.

Inductive Result (A : Type) : Type :=
| Return (a : A)
| Throw (error : Thrown).
Arguments Return {A} a.
Arguments Throw {A} error.

Definition isReturn {A : Type} (r : Result A) : bool :=
  match r with Return _ => true | Throw _ => false end.

(** The message of the error raised for a truncated string at [path]. *)
Definition truncationMessage (path data : string) : string :=
  "Truncated text detected at " ++ path ++ ": " ++ dquote
    ++ substring 0 50 data ++ "..." ++ dquote.

Definition indexPath (path : string) (index : nat) : string :=
  path ++ "[" ++ ofNat index ++ "]".

Definition keyPath (path key : string) : string :=
  path ++ "." ++ key.

(** [validateNoTruncation(data, path)].  [forEach] stops at the first
    callback that throws. *)
Fixpoint validateNoTruncation (data : Json) (path : string) : Result unit :=
  match data with
  | JString s =>
      if isTruncated s
      then Throw (ThrowError (mkError (truncationMessage path s)))
      else Return tt
  | JArray items =>
      (fix forEach (l : list Json) (index : nat) {struct l} : Result unit :=
         match l with
         | [] => Return tt
         | item :: rest =>
             match validateNoTruncation item (indexPath path index) with
             | Throw e => Throw e
             | Return _ => forEach rest (S index)
             end
         end) items 0
  | JObject entries =>
      (fix forEach (l : list (string * Json)) {struct l} : Result unit :=
         match l with
         | [] => Return tt
         | (key, value) :: rest =>
             match validateNoTruncation value (keyPath path key) with
             | Throw e => Throw e
             | Return _ => forEach rest
             end
         end) entries
  | JNull | JBool _ | JNumber _ => Return tt
  end.

(** The string-valued leaves of a structure, each with the path the check
    reports for it, in the order of the traversal.  This is the reading of
    the specification ("every string-valued leaf of a parsed structure,
    arrays and nested records") against which the check is compared. *)
Fixpoint stringLeaves (data : Json) (path : string) : list (string * string) :=
  match data with
  | JString s => [(path, s)]
  | JArray items =>
      (fix go (l : list Json) (index : nat) {struct l} : list (string * string) :=
         match l with
         | [] => []
         | item :: rest =>
             (stringLeaves item (indexPath path index) ++ go rest (S index))%list
         end) items 0
  | JObject entries =>
      (fix go (l : list (string * Json)) {struct l} : list (string * string) :=
         match l with
         | [] => []
         | (key, value) :: rest =>
             (stringLeaves value (keyPath path key) ++ go rest)%list
         end) entries
  | JNull | JBool _ | JNumber _ => []
  end.

(* ===================================================================== *)
(** ** What the generator is given and what it imports *)
(* ===================================================================== *)

Inductive AnalysisType : Type := Intent | Tone | Impact | Alternatives.

(** [GenerationOptions] of [types.ts]: both fields optional. *)
Record GenerationOptions : Type := {
  maxTokens : option nat;
  temperature : option Q
}.

(** [LlamaJsonSchemaGrammar]: the generator only calls [grammar.parse]. *)
Record LlamaJsonSchemaGrammar : Type := {
  grammar_parse : string -> Result Json
}.

(** One entry of Ajv's [validator.errors]. *)
Record ErrorObject : Type := {
  instancePath : string;
  errorText : string
}.

(** Ajv's [ValidateFunction]: [validate v] is the result of [validator(v)],
    and [errorsAfter v] is what [validator.errors] holds right after that
    call. *)
Record ValidateFunction : Type := {
  validate : Json -> bool;
  errorsAfter : Json -> list ErrorObject
}.

(** The two imports from [validation.ts], whose text is not part of the
    sources at hand; they are parameters of the generator. *)
Record ValidationModule : Type := {
  formatValidationErrors : list ErrorObject -> string;
  parseJSON : string -> Result Json
}.

(** [GeneratorDependencies].  [contextSequence] stands for the model behind
    it: what [session.prompt(prompt, {grammar, maxTokens, temperature})]
    yields, for a chat session created on it with [systemPrompt], in a
    given state of the world, and the state it leaves.  [logger] says
    whether a logger was supplied; [LLMLogger] catches its own failures, so
    a log call never throws. *)
Record GeneratorDependencies (World : Type) : Type := {
  contextSequence :
    string -> string -> LlamaJsonSchemaGrammar -> nat -> Q ->
    World -> Result string * World;
  contextSize : nat;
  sessionId : option string;
  logger : bool
}.
Arguments contextSequence {World} _ _ _ _ _ _ _.
Arguments contextSize {World} _.
Arguments sessionId {World} _.
Arguments logger {World} _.

(** The observable calls of one run, oldest first. *)
Inductive Event : Type :=
| LogRequest (session : string) (type : AnalysisType) (prompt : string)
             (temp : Q) (tokens : nat)
| ModelPrompt (systemPrompt prompt : string)
| LogResponse (session : string) (type : AnalysisType) (response : string)
| LogError (session : string) (type : AnalysisType) (error : string)
           (attempt : option nat)
| GrammarParse (response : string)
| ManualParse (response : string).

Record State (World : Type) : Type := mkState {
  world : World;
  trace : list Event
}.
Arguments mkState {World} _ _.
Arguments world {World} _.
Arguments trace {World} _.

(** An [async] function returning [A]. *)
Definition Async (World A : Type) : Type :=
  State World -> Result A * State World.

Section AsyncMonad.
Context {World : Type}.

Definition ret {A : Type} (a : A) : Async World A :=
  fun st => (Return a, st).

Definition throw {A : Type} (error : Thrown) : Async World A :=
  fun st => (Throw error, st).

Definition bind {A B : Type} (c : Async World A) (k : A -> Async World B)
  : Async World B :=
  fun st =>
    match c st with
    | (Return a, st') => k a st'
    | (Throw error, st') => (Throw error, st')
    end.

Definition emit (e : Event) : Async World unit :=
  fun st => (Return tt, mkState (world st) (trace st ++ [e])).

(** A synchronous call that may throw. *)
Definition call {A : Type} (r : Result A) : Async World A :=
  fun st => (r, st).

End AsyncMonad.

Declare Scope async_scope.
Delimit Scope async_scope with async.
Notation "x <- c ;; k" := (bind c (fun x => k))
  (at level 61, c at next level, right associativity) : async_scope.
Notation "c ;; k" := (bind c (fun _ => k))
  (at level 61, right associativity) : async_scope.

(* ===================================================================== *)
(** ** Constrained generator *)
(* ===================================================================== *)

Definition defaultSystemPrompt : string :=
  "You are a communication analysis expert. Always respond with valid, complete JSON only. Generate all required items - do not return empty arrays or incomplete responses. CRITICAL: All text fields must be COMPLETE - never truncate mid-word or mid-sentence. Every field must end with complete words and proper punctuation.".

Definition alternativesSystemPrompt : string :=
  "You are a communication analysis expert specializing in rewriting messages. You MUST generate complete alternatives with ALL fields filled in. NEVER return empty strings ("
  ++ dquote ++ dquote ++
  ") for any field. Every badge, text, reason, and tag must contain actual content. CRITICAL: All text fields must be COMPLETE - never truncate mid-word or mid-sentence. Always respond with valid, complete JSON only.".

Definition systemPromptFor (analysisType : option AnalysisType) : string :=
  match analysisType with
  | Some Alternatives => alternativesSystemPrompt
  | _ => defaultSystemPrompt
  end.

Section Generator.
Context {World : Type}.
Variable lib : ValidationModule.
Variable grammar : LlamaJsonSchemaGrammar.
Variable validator : ValidateFunction.
Variable dependencies : GeneratorDependencies World.
Variable options : GenerationOptions.
Variable analysisType : option AnalysisType.

Local Open Scope async_scope.

(** [logger && sessionId && analysisType]: the session and type to log
    under when all three are present. *)
Definition logTarget : option (string * AnalysisType) :=
  if logger dependencies then
    match sessionId dependencies, analysisType with
    | Some session, Some type =>
        if truthy session then Some (session, type) else None
    | _, _ => None
    end
  else None.

Definition logRequest (prompt : string) (temp : Q) (tokens : nat)
  : Async World unit :=
  match logTarget with
  | Some (session, type) => emit (LogRequest session type prompt temp tokens)
  | None => ret tt
  end.

Definition logResponse (response : string) : Async World unit :=
  match logTarget with
  | Some (session, type) => emit (LogResponse session type response)
  | None => ret tt
  end.

Definition logError (error : string) (attempt : option nat)
  : Async World unit :=
  match logTarget with
  | Some (session, type) => emit (LogError session type error attempt)
  | None => ret tt
  end.

(** [temperature = 0.7] by default. *)
Definition temperatureToUse : Q :=
  match temperature options with Some t => t | None => 7 # 10 end.

(** [maxTokens ?? contextSize] *)
Definition maxTokensToUse : nat :=
  match maxTokens options with Some n => n | None => contextSize dependencies end.

(** [new LlamaChatSession({contextSequence, systemPrompt})], the statement
    in front of the [try] block.  The class is node-llama-cpp's; a session
    is known here by the system prompt it was created with, and the
    constructor is taken to return: the runs described are those in which
    a chat session is obtained.  Were it to throw, the call would end
    there, with the request logged and nothing asked of the model. *)
Definition LlamaChatSession : Type := string.

Definition newLlamaChatSession (systemPrompt : string)
  : Async World LlamaChatSession :=
  ret systemPrompt.

(** [session.prompt(prompt, {grammar, maxTokens, temperature})], the first
    statement of the [try] block. *)
Definition promptSession (session : LlamaChatSession) (prompt : string)
  : Async World string :=
  fun st =>
    let '(r, w) :=
      contextSequence dependencies session prompt grammar
                      maxTokensToUse temperatureToUse (world st) in
    (r, mkState w (trace st ++ [ModelPrompt session prompt])).

(** The [try] block from the point where [response] has been assigned:
    log it, parse it with the grammar, validate, check for truncation. *)
Definition afterResponse (response : string) : Async World Json :=
  (if truthy response then logResponse response else ret tt) ;;
  emit (GrammarParse response) ;;
  parsed <- call (grammar_parse grammar response) ;;
  if negb (validate validator parsed) then
    let errors := formatValidationErrors lib (errorsAfter validator parsed) in
    logError ("Validation failed: " ++ errors) None ;;
    throw (ThrowError (mkError ("Validation failed: " ++ errors)))
  else
    match validateNoTruncation parsed "root" with
    | Throw truncationError =>
        let errorMsg := messageOrString truncationError in
        logError ("Truncation detected: " ++ errorMsg) None ;;
        throw (ThrowError (mkError ("Response appears truncated: " ++ errorMsg)))
    | Return _ => ret parsed
    end.

(** The [catch (error)] block.  [response] is the value of the local
    variable at that point: [None] while it is still [undefined]. *)
Definition catchBlock (response : option string) (error : Thrown)
  : Async World Json :=
  logError (messageOrString error) None ;;
  match response with
  | Some raw =>
      if instanceofError error && truthy raw then
        emit (ManualParse raw) ;;
        match parseJSON lib raw with
        | Return manualParsed =>
            if validate validator manualParsed then
              logResponse raw ;;
              ret manualParsed
            else throw error
        | Throw parseError => throw error
        end
      else throw error
  | None => throw error
  end.

Definition generateWithSchema (prompt : string) : Async World Json :=
  logRequest prompt temperatureToUse maxTokensToUse ;;
  session <- newLlamaChatSession (systemPromptFor analysisType) ;;
  fun st =>
    match promptSession session prompt st with
    | (Throw error, st1) => catchBlock None error st1
    | (Return response, st1) =>
        match afterResponse response st1 with
        | (Return parsed, st2) => (Return parsed, st2)
        | (Throw error, st2) => catchBlock (Some response) error st2
        end
    end.

(* =================================================================== *)
(** ** Retry controller *)
(* =================================================================== *)

Variable promptBuilder : string -> option string -> string.
Variable buildRetryPrompt : string -> string -> string.
Variable userMessage : string.
Variable context : option string.

Definition maxAttempts : nat := 2.

(** [lastError?.message || 'Unknown error'] *)
Definition lastErrorMessage (lastError : option JsError) : string :=
  orElse (match lastError with Some e => message e | None => "" end)
         "Unknown error".

(** The "log retry attempt error" step of the [catch] clause. *)
Definition logAttemptFailure (attempt : nat) (lastError : JsError)
  : Async World unit :=
  logError ("Attempt " ++ ofNat attempt ++ " failed: " ++ message lastError)
           (Some attempt).

(** The [for] loop, entered with [attempt] and [lastError]; [remaining]
    is [maxAttempts + 1 - attempt], the number of iterations for which
    the loop condition [attempt <= maxAttempts] still holds.  When it
    is exhausted the statement after the loop throws [lastError]. *)
Fixpoint attemptLoop (remaining attempt : nat) (lastError : option JsError)
  : Async World Json :=
  match remaining with
  | 0 =>
      throw (match lastError with
             | Some e => ThrowError e
             | None => ThrowValue "null"
             end)
  | S remaining' =>
      let prompt :=
        if attempt =? 1 then promptBuilder userMessage context
        else buildRetryPrompt (promptBuilder userMessage context)
                              (lastErrorMessage lastError) in
      fun st =>
        match generateWithSchema prompt st with
        | (Return value, st') => (Return value, st')
        | (Throw error, st') =>
            let lastError' := asError error in
            (logAttemptFailure attempt lastError' ;;
             if attempt =? maxAttempts then
               throw (ThrowError (mkError
                 ("Failed after " ++ ofNat maxAttempts ++ " attempts: "
                  ++ message lastError')))
             else attemptLoop remaining' (S attempt) (Some lastError')) st'
        end
  end.

Definition generateWithRetry : Async World Json :=
  attemptLoop maxAttempts 1 None.

End Generator.

(* ===================================================================== *)
(** ** Vocabulary of the specification *)
(* ===================================================================== *)

(** An empty or white-space-only string. *)
Definition isBlank (s : string) : bool :=
  forallb isWhiteSpace (list_ascii_of_string s).

(** A character that ends a complete sentence. *)
Definition isSentenceEnd (c : ascii) : bool :=
  Ascii.eqb c "." || Ascii.eqb c "!" || Ascii.eqb c "?".

(** The first leaf, in traversal order, that the detector flags. *)
Definition firstTruncated (leaves : list (string * string))
  : option (string * string) :=
  find (fun leaf => isTruncated (snd leaf)) leaves.

(** The verdict of the check as a function of the first flagged leaf. *)
Definition verdictOf (found : option (string * string)) : Result unit :=
  match found with
  | Some (p, s) => Throw (ThrowError (mkError (truncationMessage p s)))
  | None => Return tt
  end.

(** The prompts handed to the model, in order: one per generation attempt. *)
Fixpoint modelPromptsOf (events : list Event) : list string :=
  match events with
  | [] => []
  | ModelPrompt _ prompt :: rest => prompt :: modelPromptsOf rest
  | _ :: rest => modelPromptsOf rest
  end.

(** The system prompt and the prompt of every [session.prompt] call, in
    order. *)
Fixpoint modelRequestsOf (events : list Event) : list (string * string) :=
  match events with
  | [] => []
  | ModelPrompt systemPrompt prompt :: rest =>
      (systemPrompt, prompt) :: modelRequestsOf rest
  | _ :: rest => modelRequestsOf rest
  end.


(** The raw outputs handed to the lenient fallback parser, in order. *)
Fixpoint manualParsesOf (events : list Event) : list string :=
  match events with
  | [] => []
  | ManualParse raw :: rest => raw :: manualParsesOf rest
  | _ :: rest => manualParsesOf rest
  end.

(* ===================================================================== *)
(** ** A concrete setting: the intent facet with a scripted model *)
(* ===================================================================== *)

Module Scenario.

(** The world is the list of outcomes the model will still produce. *)
Definition Script : Type := list (Result string).

Definition scriptedModel
  (systemPrompt prompt : string) (g : LlamaJsonSchemaGrammar)
  (tokens : nat) (temp : Q) (w : Script) : Result string * Script :=
  match w with
  | [] => (Throw (ThrowError (mkError "Object is disposed")), [])
  | outcome :: rest => (outcome, rest)
  end.

Definition deps : GeneratorDependencies Script := {|
  contextSequence := scriptedModel;
  contextSize := 2048;
  sessionId := Some "s1";
  logger := true
|}.

Definition noOptions : GenerationOptions := {|
  maxTokens := None;
  temperature := None
|}.

Definition quoted (s : string) : string := dquote ++ s ++ dquote.

(** The text of a JSON object whose only field, [primary], holds the
    given string. *)
Definition intentText (primary : string) : string :=
  "{" ++ quoted "primary" ++ ":" ++ quoted primary ++ "}".

Definition intentValue (primary : string) : Json :=
  JObject [("primary", JString primary)].

(** The same text inside a Markdown fence, which only the lenient parser
    accepts. *)
Definition fenced (text : string) : string := "```json " ++ text ++ " ```".

Definition syntaxError : Thrown :=
  ThrowError (mkError "Unexpected token in JSON").

(** A parser that knows the given texts and rejects every other one. *)
Fixpoint parseKnown (known : list (string * Json)) (raw : string) : Result Json :=
  match known with
  | [] => Throw syntaxError
  | (text, value) :: rest =>
      if (text =? raw)%string then Return value else parseKnown rest raw
  end.

Definition complete : string := "The sender asks for a document.".
Definition cutOff : string := "The person is express{".

Definition knownTexts : list (string * Json) :=
  [ (intentText complete, intentValue complete);
    (intentText cutOff, intentValue cutOff);
    (intentText "", intentValue "") ].

Definition intentGrammar : LlamaJsonSchemaGrammar := {|
  grammar_parse := parseKnown knownTexts
|}.

Definition lenientTexts : list (string * Json) :=
  (knownTexts
   ++ [ (fenced (intentText complete), intentValue complete);
        (fenced (intentText cutOff), intentValue cutOff) ])%list.

(** The intent schema reduced to one required string of length >= 1. *)
Definition intentValidator : ValidateFunction := {|
  validate v :=
    match v with
    | JObject [(key, JString p)] => (key =? "primary")%string && truthy p
    | _ => false
    end;
  errorsAfter v :=
    match v with
    | JObject [(key, JString p)] =>
        if (key =? "primary")%string && negb (truthy p)
        then [ {| instancePath := "/primary";
                  errorText := "must NOT have fewer than 1 characters" |} ]
        else []
    | _ => [ {| instancePath := "";
                errorText := "must have required property primary" |} ]
    end
|}.

Definition validationLib : ValidationModule := {|
  formatValidationErrors errs :=
    String.concat "; "
      (map (fun e => instancePath e ++ ": " ++ errorText e) errs);
  parseJSON := parseKnown lenientTexts
|}.

Definition intentPrompt (msg : string) (ctx : option string) : string :=
  match ctx with
  | Some c => "Context: " ++ c ++ " Analyze the intent of: " ++ msg
  | None => "Analyze the intent of: " ++ msg
  end.

Definition retryPrompt (original error : string) : string :=
  original ++ " PREVIOUS ATTEMPT FAILED: " ++ error.

Definition start (script : Script) : State Script := mkState script [].

Definition generate (prompt : string) : Async Script Json :=
  generateWithSchema validationLib intentGrammar intentValidator deps
                     noOptions (Some Intent) prompt.

Definition generateRetrying (msg : string) : Async Script Json :=
  generateWithRetry validationLib intentGrammar intentValidator deps
                    noOptions (Some Intent) intentPrompt retryPrompt msg None.

(** What one [session.prompt] call was given. *)
Record Request : Type := {
  requestSystemPrompt : string;
  requestPrompt : string;
  requestMaxTokens : nat;
  requestTemperature : Q
}.

(** A model that always gives the same answer and keeps the requests it
    received: the world is the list of these requests, oldest first. *)
Definition recordingModel (answer : string)
  (systemPrompt prompt : string) (g : LlamaJsonSchemaGrammar)
  (tokens : nat) (temp : Q) (w : list Request)
  : Result string * list Request :=
  (Return answer,
   (w ++ [ {| requestSystemPrompt := systemPrompt;
              requestPrompt := prompt;
              requestMaxTokens := tokens;
              requestTemperature := temp |} ])%list).

Definition recordingDeps (answer : string)
  : GeneratorDependencies (list Request) := {|
  contextSequence := recordingModel answer;
  contextSize := 2048;
  sessionId := Some "s1";
  logger := true
|}.

End Scenario.

(* ===================================================================== *)
(** ** Further vocabulary *)
(* ===================================================================== *)

(** [openBraces > closeBraces || openBrackets > closeBrackets], counted on
    a text. *)
Definition hasUnclosedOpening (text : string) : bool :=
  (countChar "}" text <? countChar "{" text)
  || (countChar "]" text <? countChar "[" text).

(** The raw outputs handed to the grammar's parser, in order. *)
Fixpoint grammarParsesOf (events : list Event) : list string :=
  match events with
  | [] => []
  | GrammarParse raw :: rest => raw :: grammarParsesOf rest
  | _ :: rest => grammarParsesOf rest
  end.

(* ===================================================================== *)
(** ** The logger: [backend/lib/llm-logger.ts] *)
(* ===================================================================== *)

Module LlmLogger.

(** The line-feed character. *)
Definition newline : ascii := ascii_of_nat 10.
Definition nl : string := String newline EmptyString.

(** [s.split('\n')]: the pieces between line feeds; one piece more than
    there are line feeds. *)
Fixpoint splitLines (s : string) : list string :=
  match s with
  | EmptyString => [EmptyString]
  | String c rest =>
      if Ascii.eqb c newline then EmptyString :: splitLines rest
      else match splitLines rest with
           | line :: more => String c line :: more
           | [] => [String c EmptyString]
           end
  end.

(** A piece of text without a line feed. *)
Definition noNewline (line : string) : Prop := countChar newline line = 0.

(** [lines.join('\n')] *)
Definition joinLines (lines : list string) : string := String.concat nl lines.

(** [text.split('\n').map(line => `  ${line}`).join('\n')] *)
Definition indentLines (text : string) : string :=
  joinLines (map (fun line => "  " ++ line) (splitLines text)).

Inductive EntryType : Type := RequestEntry | ResponseEntry | ErrorEntry.

(** [entry.type.toUpperCase()] *)
Definition typeUpper (t : EntryType) : string :=
  match t with
  | RequestEntry => "REQUEST"
  | ResponseEntry => "RESPONSE"
  | ErrorEntry => "ERROR"
  end.

(** The string an analysis type is in the source. *)
Definition analysisTypeName (t : AnalysisType) : string :=
  match t with
  | Intent => "intent"
  | Tone => "tone"
  | Impact => "impact"
  | Alternatives => "alternatives"
  end.

(** [LLMLogEntry]; an absent optional field is [None]. *)
Record LLMLogEntry : Type := {
  timestamp : string;
  entryType : EntryType;
  entryAnalysisType : option AnalysisType;
  entryPrompt : option string;
  entryResponse : option string;
  entryError : option string;
  entryAttempt : option nat;
  entryModel : option string;
  entryOptions : option GenerationOptions
}.

(** Truthiness of an optional string and of an optional number. *)
Definition present (field : option string) : option string :=
  match field with
  | Some text => if truthy text then Some text else None
  | None => None
  end.

Definition nonZero (field : option nat) : option nat :=
  match field with
  | Some 0 => None
  | other => other
  end.

(** The length beyond which a response is cut in the log. *)
Definition responseLimit : nat := 5000.

(** The response as it is logged, before indentation. *)
Definition loggedResponse (response : string) : string :=
  if responseLimit <? String.length response
  then substring 0 responseLimit response ++ nl ++ "  ... (truncated)"
  else response.

Section Format.
(** How JavaScript prints the number held by [temperature]. *)
Variable numberToString : Q -> string.

Definition headerLine (entry : LLMLogEntry) : string :=
  "[" ++ timestamp entry ++ "] " ++ typeUpper (entryType entry)
  ++ match entryAnalysisType entry with
     | Some t => " (" ++ analysisTypeName t ++ ")"
     | None => ""
     end
  ++ match nonZero (entryAttempt entry) with
     | Some n => " [Attempt " ++ ofNat n ++ "]"
     | None => ""
     end.

Definition temperatureOption (o : GenerationOptions) : list string :=
  match temperature o with
  | Some t => ["temperature=" ++ numberToString t]
  | None => []
  end.

Definition maxTokensOption (o : GenerationOptions) : list string :=
  match maxTokens o with
  | Some n => ["maxTokens=" ++ ofNat n]
  | None => []
  end.

Definition optionLines (entry : LLMLogEntry) : list string :=
  match entryOptions entry with
  | Some o =>
      let opts := (temperatureOption o ++ maxTokensOption o)%list in
      match opts with
      | [] => []
      | _ :: _ => ["Options: " ++ String.concat ", " opts]
      end
  | None => []
  end.

Definition modelLines (entry : LLMLogEntry) : list string :=
  match present (entryModel entry) with
  | Some m => ["Model: " ++ m]
  | None => []
  end.

Definition promptLines (entry : LLMLogEntry) : list string :=
  match present (entryPrompt entry) with
  | Some p => ["Prompt:"; indentLines p]
  | None => []
  end.

Definition responseLines (entry : LLMLogEntry) : list string :=
  match present (entryResponse entry) with
  | Some r => ["Response:"; indentLines (loggedResponse r)]
  | None => []
  end.

Definition errorLines (entry : LLMLogEntry) : list string :=
  match present (entryError entry) with
  | Some e => ["Error: " ++ e]
  | None => []
  end.

(** The lines pushed by [formatLogEntry], in order. *)
Definition entryLines (entry : LLMLogEntry) : list string :=
  ([headerLine entry]
   ++ modelLines entry
   ++ optionLines entry
   ++ promptLines entry
   ++ responseLines entry
   ++ errorLines entry
   ++ ["---"])%list.

Definition formatLogEntry (entry : LLMLogEntry) : string :=
  joinLines (entryLines entry).

End Format.

(** The entry [logResponse] builds at the time [stamp], for a logger whose
    model name is [model]. *)
Definition responseEntry (stamp model : string) (type : AnalysisType)
           (response : string) (attempt : option nat) : LLMLogEntry := {|
  timestamp := stamp;
  entryType := ResponseEntry;
  entryAnalysisType := Some type;
  entryPrompt := None;
  entryResponse := Some response;
  entryError := None;
  entryAttempt := attempt;
  entryModel := Some model;
  entryOptions := None
|}.

(** The entry [logError] builds. *)
Definition errorEntry (stamp model : string) (type : AnalysisType)
           (error : string) (attempt : option nat) : LLMLogEntry := {|
  timestamp := stamp;
  entryType := ErrorEntry;
  entryAnalysisType := Some type;
  entryPrompt := None;
  entryResponse := None;
  entryError := Some error;
  entryAttempt := attempt;
  entryModel := Some model;
  entryOptions := None
|}.

(** The fields of an [LLMLogger]; [sessionLogFiles] is the [Map] from
    session identifier to file path, in insertion order. *)
Record LLMLogger : Type := {
  logDir : string;
  sessionLogFiles : list (string * string);
  modelName : string;
  modelPath : string
}.

(** [map.get(key)] *)
Fixpoint mapGet (files : list (string * string)) (key : string) : option string :=
  match files with
  | [] => None
  | (k, v) :: rest => if (k =? key)%string then Some v else mapGet rest key
  end.

(** [map.set(key, value)]: a present key keeps its place, a new one goes
    last. *)
Fixpoint mapSet (files : list (string * string)) (key value : string)
  : list (string * string) :=
  match files with
  | [] => [(key, value)]
  | (k, v) :: rest =>
      if (k =? key)%string then (k, value) :: rest
      else (k, v) :: mapSet rest key value
  end.

(** [iso.replace(/[:.]/g, '-')] *)
Fixpoint dashed (iso : string) : string :=
  match iso with
  | EmptyString => EmptyString
  | String c rest =>
      String (if Ascii.eqb c ":" || Ascii.eqb c "." then "-"%char else c)
             (dashed rest)
  end.

Section Paths.
(** [path.join] and [p => path.basename(p, path.extname(p))] of Node. *)
Variable pathJoin : string -> string -> string.
Variable baseName : string -> string.

(** [new LLMLogger(logDir, modelPath)]; an omitted argument is [None].
    The constructor derives [modelName] and leaves the field [modelPath]
    at its initial value. *)
Definition newLogger (dir path : option string) : LLMLogger :=
  let dir' := match dir with Some d => d | None => "./logs" end in
  let path' := match path with Some p => p | None => "" end in
  {| logDir := dir';
     sessionLogFiles := [];
     modelName := if truthy path' then baseName path' else "unknown";
     modelPath := "" |}.

Definition setModelPath (self : LLMLogger) (path : string) : LLMLogger :=
  {| logDir := logDir self;
     sessionLogFiles := sessionLogFiles self;
     modelName := baseName path;
     modelPath := path |}.

(** [getLogFilePath(sessionId)], with [now] standing for
    [new Date().toISOString()] at the time of the call.  The result is the
    path, the logger afterwards, and whether a header write was started. *)
Definition getLogFilePath (self : LLMLogger) (session now : string)
  : string * LLMLogger * bool :=
  match mapGet (sessionLogFiles self) session with
  | Some path => (path, self, false)
  | None =>
      let filename := "session-" ++ session ++ "-" ++ dashed now ++ ".log" in
      let filePath := pathJoin (logDir self) filename in
      (filePath,
       {| logDir := logDir self;
          sessionLogFiles := mapSet (sessionLogFiles self) session filePath;
          modelName := modelName self;
          modelPath := modelPath self |},
       true)
  end.

(** The text [writeLogHeader] appends to a new session file. *)
Definition logHeader (self : LLMLogger) (session started : string) : string :=
  "================================================================================" ++ nl
  ++ "LLM Session Log" ++ nl
  ++ "================================================================================" ++ nl
  ++ "Session ID: " ++ session ++ nl
  ++ "Model: " ++ modelName self ++ nl
  ++ "Model Path: " ++ orElse (modelPath self) "N/A" ++ nl
  ++ "Session Started: " ++ started ++ nl
  ++ "================================================================================" ++ nl
  ++ nl.

(** [getLLMLogger(logDir, modelPath)] on the module variable
    [loggerInstance]: the instance returned and the new value of the
    variable. *)
Definition getLLMLogger (loggerInstance : option LLMLogger)
           (dir path : option string) : LLMLogger * option LLMLogger :=
  match loggerInstance with
  | None =>
      let created := newLogger dir path in (created, Some created)
  | Some existing =>
      match present path with
      | Some p => let updated := setModelPath existing p in
                  (updated, Some updated)
      | None => (existing, Some existing)
      end
  end.

(** The logger after a series of [getLogFilePath] calls, each given by
    its session and the time at which it is made. *)
Fixpoint afterPathCalls (self : LLMLogger) (calls : list (string * string))
  : LLMLogger :=
  match calls with
  | [] => self
  | (session, now) :: rest =>
      afterPathCalls (snd (fst (getLogFilePath self session now))) rest
  end.

End Paths.

(** A file of the log directory as [cleanupOldLogs] meets it: its name,
    the modification time [fs.stat] reports ([None] when [fs.stat]
    throws), and whether [fs.unlink] succeeds on it. *)
Record DirEntry : Type := {
  fileName : string;
  mtime : option Z;
  removable : bool
}.

(** [maxAgeDays * 24 * 60 * 60 * 1000] *)
Definition maxAgeOf (maxAgeDays : Z) : Z :=
  (maxAgeDays * 24 * 60 * 60 * 1000)%Z.

(** The loop of [cleanupOldLogs] over the names [fs.readdir] returned:
    the files unlinked, in order.  An exception of [fs.stat] or
    [fs.unlink] leaves the loop for the [catch] clause, which only
    reports it. *)
Fixpoint sweep (files : list DirEntry) (now maxAge : Z) : list string :=
  match files with
  | [] => []
  | file :: rest =>
      if endsWith (fileName file) ".log" then
        match mtime file with
        | None => []
        | Some modified =>
            if (maxAge <? now - modified)%Z then
              if removable file then fileName file :: sweep rest now maxAge
              else []
            else sweep rest now maxAge
        end
      else sweep rest now maxAge
  end.

(** [cleanupOldLogs(maxAgeDays)]; [listing] is [None] when [fs.readdir]
    throws, [now] is [Date.now()], and 30 days is the default. *)
Definition cleanupOldLogs (listing : option (list DirEntry)) (now : Z)
           (maxAgeDays : option Z) : list string :=
  match listing with
  | None => []
  | Some files =>
      sweep files now
            (maxAgeOf (match maxAgeDays with Some d => d | None => 30%Z end))
  end.

End LlmLogger.

(* ===================================================================== *)
(** ** The editor: [frontend/src/components/EditorPanel.tsx] *)
(* ===================================================================== *)

Module EditorPanel.

(** [handleAnalyze]: the argument [onAnalyze] is called with, if it is
    called. *)
Definition handleAnalyze (message : string) (isLoading : bool) : option string :=
  if truthy (trim message) && negb isLoading then Some (trim message)
  else None.

(** The fields of the keyboard event that [handleKeyDown] reads. *)
Record KeyboardEvent : Type := {
  ctrlKey : bool;
  metaKey : bool;
  key : string
}.

(** [handleKeyDown]: whether [preventDefault] is called, and the call of
    [onAnalyze] if any. *)
Definition handleKeyDown (e : KeyboardEvent) (message : string)
           (isLoading : bool) : bool * option string :=
  if (ctrlKey e || metaKey e) && (key e =? "Enter")%string
  then (true, handleAnalyze message isLoading)
  else (false, None).

(** The [disabled] attribute of the button. *)
Definition buttonDisabled (message : string) (isLoading : bool) : bool :=
  isLoading || negb (truthy (trim message)).

End EditorPanel.

(* ===================================================================== *)
(** * Properties *)
(* ===================================================================== *)

(** ** Strings *)

Lemma list_ascii_of_string_app (s1 s2 : string) :
  list_ascii_of_string (s1 ++ s2) =
  (list_ascii_of_string s1 ++ list_ascii_of_string s2)%list.
Proof.
  induction s1 as [|c s1 IH]; simpl; [reflexivity | now rewrite IH].
Qed.

Lemma append_assoc (s1 s2 s3 : string) : (s1 ++ s2) ++ s3 = s1 ++ s2 ++ s3.
Proof. induction s1 as [|c s1 IH]; cbn; [reflexivity | now rewrite IH]. Qed.

Lemma fromEnd_app (s1 s2 : string) :
  fromEnd (s1 ++ s2) = (fromEnd s2 ++ fromEnd s1)%list.
Proof.
  unfold fromEnd. now rewrite list_ascii_of_string_app, rev_app_distr.
Qed.

Lemma fromEnd_last (pre : string) (c : ascii) :
  fromEnd (pre ++ String c "") = c :: fromEnd pre.
Proof. now rewrite fromEnd_app. Qed.

Lemma fromEnd_last2 (pre : string) (a b : ascii) :
  fromEnd (pre ++ String a (String b "")) = b :: a :: fromEnd pre.
Proof. now rewrite fromEnd_app. Qed.

Lemma length_app_cons (pre rest : string) (c : ascii) :
  (String.length (pre ++ String c rest) =? 0) = false.
Proof.
  destruct pre; reflexivity.
Qed.

Lemma trim_empty : trim "" = "".
Proof. reflexivity. Qed.

Lemma truthy_of_trim (text pre rest : string) (c : ascii) :
  trim text = pre ++ String c rest -> truthy text = true.
Proof.
  destruct text; [| reflexivity].
  rewrite trim_empty. destruct pre; discriminate.
Qed.

Lemma trimStart_blank (s : string) : isBlank s = true -> trimStart s = "".
Proof.
  unfold isBlank. induction s as [|c s IH]; simpl; [reflexivity |].
  intros H. apply andb_true_iff in H as [Hc Hs]. rewrite Hc. now apply IH.
Qed.

Lemma trim_blank (s : string) : isBlank s = true -> trim s = "".
Proof.
  intros H. unfold trim. now rewrite trimStart_blank.
Qed.

Lemma countChar_trimStart (c : ascii) (s : string) :
  isWhiteSpace c = false -> countChar c (trimStart s) = countChar c s.
Proof.
  intros Hc. induction s as [|d s IH]; simpl; [reflexivity |].
  destruct (isWhiteSpace d) eqn:Hd; [| reflexivity].
  rewrite IH. destruct (Ascii.eqb_spec d c) as [->|]; [congruence | reflexivity].
Qed.

Lemma countChar_trimEnd (c : ascii) (s : string) :
  isWhiteSpace c = false -> countChar c (trimEnd s) = countChar c s.
Proof.
  intros Hc. induction s as [|d s IH]; simpl; [reflexivity |].
  destruct (trimEnd s) eqn:Hs.
  - simpl in IH. rewrite <- IH.
    destruct (isWhiteSpace d) eqn:Hd; [| reflexivity].
    simpl. destruct (Ascii.eqb_spec d c) as [->|]; [congruence | reflexivity].
  - rewrite <- IH. reflexivity.
Qed.

Lemma countChar_trim (c : ascii) (s : string) :
  isWhiteSpace c = false -> countChar c (trim s) = countChar c s.
Proof.
  intros Hc. unfold trim.
  now rewrite countChar_trimEnd, countChar_trimStart.
Qed.

Lemma trimEnd_blank (s : string) : isBlank s = true -> trimEnd s = "".
Proof.
  unfold isBlank. induction s as [|c s IH]; cbn; [reflexivity |].
  intros H. apply andb_true_iff in H as [Hc Hs]. now rewrite (IH Hs), Hc.
Qed.

(** Trimming keeps everything up to the last character that is not white
    space. *)
Lemma trimEnd_keeps (pre ws : string) (c : ascii) :
  isWhiteSpace c = false -> isBlank ws = true ->
  trimEnd (pre ++ String c ws) = pre ++ String c "".
Proof.
  intros Hc Hws. induction pre as [|d pre IH]; cbn [append trimEnd].
  - now rewrite (trimEnd_blank ws Hws), Hc.
  - rewrite IH. destruct pre; reflexivity.
Qed.

Lemma trimStart_keeps (pre rest : string) (c : ascii) :
  isWhiteSpace c = false ->
  exists pre', trimStart (pre ++ String c rest) = pre' ++ String c rest.
Proof.
  intros Hc. induction pre as [|d pre IH]; cbn [append trimStart].
  - rewrite Hc. now exists "".
  - destruct (isWhiteSpace d); [exact IH |]. now exists (String d pre).
Qed.

Lemma trim_keeps_last (pre ws : string) (c : ascii) :
  isWhiteSpace c = false -> isBlank ws = true ->
  exists pre', trim (pre ++ String c ws) = pre' ++ String c "".
Proof.
  intros Hc Hws. unfold trim.
  destruct (trimStart_keeps pre ws c Hc) as [pre' ->].
  exists pre'. now apply trimEnd_keeps.
Qed.

Lemma dropWhile_app_stop (p : ascii -> bool) (l rest : list ascii) (c : ascii) :
  forallb p l = true -> p c = false ->
  dropWhile p (l ++ c :: rest) = c :: rest.
Proof.
  intros Hl Hc. induction l as [|d l IH]; simpl.
  - now rewrite Hc.
  - simpl in Hl. apply andb_true_iff in Hl as [Hd Hl]. rewrite Hd. now apply IH.
Qed.

Lemma isBracketClass_not_space (c : ascii) :
  isBracketClass c = true -> isWhiteSpace c = false.
Proof.
  unfold isBracketClass. intros H.
  repeat (apply orb_true_iff in H as [H|H]);
    apply Ascii.eqb_eq in H; subst c; reflexivity.
Qed.

Lemma isSentenceEnd_plain (c : ascii) :
  isSentenceEnd c = true -> isBracketClass c = false /\ isWhiteSpace c = false.
Proof.
  unfold isSentenceEnd. intros H.
  repeat (apply orb_true_iff in H as [H|H]);
    apply Ascii.eqb_eq in H; subst c; split; reflexivity.
Qed.

Lemma isOpenClass_bracket (c : ascii) :
  isOpenClass c = true -> isBracketClass c = true.
Proof.
  unfold isOpenClass, isBracketClass. intros H.
  apply orb_true_iff in H as [H|H]; rewrite H; simpl;
    rewrite ?orb_true_r; reflexivity.
Qed.

(** ** Truncation detector *)

(** The examples of the source's documentation. *)
Example isTruncated_making :
  isTruncated "This version is making{" = true.
Proof. reflexivity. Qed.

Example isTruncated_frustrat :
  isTruncated "The recipient may feel frustrat{" = true.
Proof. reflexivity. Qed.

Example isTruncated_long_explanation :
  isTruncated
    "This is a very long explanation that gets cut off mid-sentenc{" = true.
Proof. reflexivity. Qed.

Example isTruncated_yes : isTruncated "Yes." = false.
Proof. reflexivity. Qed.

(** An unclosed structure is flagged even without a letter before it, a
    closing bracket after a digit is not. *)
Example isTruncated_digit_open : isTruncated "  v1[  " = true.
Proof. reflexivity. Qed.

Example isTruncated_digit_close : isTruncated "  v1]  " = false.
Proof. reflexivity. Qed.

(** A trimmed text that ends with a letter followed by one of the three
    bracket characters is flagged by the first pattern. *)
Lemma isTruncated_letter_bracket (text pre : string) (a b : ascii) :
  trim text = pre ++ String a (String b "") ->
  isLetter a = true -> isBracketClass b = true ->
  isTruncated text = true.
Proof.
  intros Ht Ha Hb. unfold isTruncated.
  rewrite (truthy_of_trim _ _ _ _ Ht), Ht, length_app_cons. simpl.
  unfold incompleteWordPattern. rewrite fromEnd_last2, Ha, Hb. reflexivity.
Qed.

(** A trimmed text whose last character is neither white space nor one of
    the three bracket characters is never flagged. *)
Lemma isTruncated_plain_end (text pre : string) (c : ascii) :
  trim text = pre ++ String c "" ->
  isBracketClass c = false -> isWhiteSpace c = false ->
  isTruncated text = false.
Proof.
  intros Ht Hb Hw. unfold isTruncated.
  rewrite (truthy_of_trim _ _ _ _ Ht), Ht, length_app_cons.
  cbn [negb orb].
  unfold incompleteWordPattern, incompleteSentencePattern, incompleteWordEnd,
    openThenSpacePattern, endsWith.
  rewrite fromEnd_last. cbn [dropWhile]. rewrite Hw, Hb.
  assert (Ho : isOpenClass c = false).
  { destruct (isOpenClass c) eqn:E; [| reflexivity].
    apply isOpenClass_bracket in E. congruence. }
  assert (H1 : isPrefixOf (fromEnd "{") (c :: fromEnd pre) = false).
  { change (Ascii.eqb "{" c && true = false).
    rewrite Ascii.eqb_sym. unfold isOpenClass in Ho.
    apply orb_false_iff in Ho as [-> _]. reflexivity. }
  assert (H2 : isPrefixOf (fromEnd "[") (c :: fromEnd pre) = false).
  { change (Ascii.eqb "[" c && true = false).
    rewrite Ascii.eqb_sym. unfold isOpenClass in Ho.
    apply orb_false_iff in Ho as [_ ->]. reflexivity. }
  rewrite H1, H2, Ho, andb_false_r.
  destruct (fromEnd pre) as [|a l]; rewrite ?andb_false_r; reflexivity.
Qed.

Lemma forallb_rev_true (p : ascii -> bool) (l : list ascii) :
  forallb p l = true -> forallb p (rev l) = true.
Proof.
  rewrite !forallb_forall. intros H x Hx. apply H. now apply in_rev.
Qed.

(** A trimmed text that ends with an opening character, with or without
    white space after it, matches the pattern of the unclosed-structure
    test. *)
Lemma openThenSpacePattern_intro (pre ws : string) (c : ascii) :
  isOpenClass c = true -> isBlank ws = true ->
  openThenSpacePattern (pre ++ String c ws) = true.
Proof.
  intros Hc Hws. unfold openThenSpacePattern.
  rewrite fromEnd_app. unfold fromEnd at 1. cbn [list_ascii_of_string rev].
  rewrite <- app_assoc. cbn [app].
  rewrite dropWhile_app_stop; auto using forallb_rev_true.
  apply isBracketClass_not_space. now apply isOpenClass_bracket.
Qed.

(** ** Recursive truncation check *)

(** Induction over a JSON tree, with the hypothesis available for every
    element of an array and every value of an object. *)
Lemma Json_nested_ind (P : Json -> Prop) :
  P JNull ->
  (forall b, P (JBool b)) ->
  (forall q, P (JNumber q)) ->
  (forall s, P (JString s)) ->
  (forall items, Forall P items -> P (JArray items)) ->
  (forall entries, Forall (fun kv => P (snd kv)) entries -> P (JObject entries)) ->
  forall data, P data.
Proof.
  intros Hnull Hbool Hnum Hstr Harr Hobj.
  fix IH 1. intros [ | b | q | s | items | entries ].
  - exact Hnull.
  - apply Hbool.
  - apply Hnum.
  - apply Hstr.
  - apply Harr. induction items as [|item items IHitems]; constructor.
    + apply IH.
    + exact IHitems.
  - apply Hobj. induction entries as [|[key value] entries IHentries]; constructor.
    + apply IH.
    + exact IHentries.
Qed.

Lemma firstTruncated_app (l1 l2 : list (string * string)) :
  firstTruncated (l1 ++ l2) =
  match firstTruncated l1 with
  | Some leaf => Some leaf
  | None => firstTruncated l2
  end.
Proof.
  unfold firstTruncated. induction l1 as [|leaf l1 IH]; simpl; [reflexivity |].
  destruct (isTruncated (snd leaf)); [reflexivity | exact IH].
Qed.

(** The check is the detector applied to the leaves in traversal order,
    stopping at the first one flagged. *)
Lemma validateNoTruncation_firstTruncated (data : Json) :
  forall path,
    validateNoTruncation data path =
    verdictOf (firstTruncated (stringLeaves data path)).
Proof.
  induction data as [ | b | q | s | items IH | entries IH ]
    using Json_nested_ind; intros path; try reflexivity.
  - cbn. destruct (isTruncated s); reflexivity.
  - cbn [validateNoTruncation stringLeaves].
    generalize 0 as index.
    induction IH as [|item items Hitem _ IHitems]; intros index;
      [reflexivity |].
    rewrite firstTruncated_app, Hitem.
    destruct (firstTruncated (stringLeaves item (indexPath path index)))
      as [[p s]|]; [reflexivity |].
    cbn [verdictOf]. apply IHitems.
  - cbn [validateNoTruncation stringLeaves].
    induction IH as [|[key value] entries Hvalue _ IHentries];
      [reflexivity |].
    cbn [snd] in Hvalue.
    rewrite firstTruncated_app, Hvalue.
    destruct (firstTruncated (stringLeaves value (keyPath path key)))
      as [[p s]|]; [reflexivity |].
    cbn [verdictOf]. apply IHentries.
Qed.

Lemma firstTruncated_some (leaves : list (string * string)) (p s : string) :
  firstTruncated leaves = Some (p, s) ->
  In (p, s) leaves /\ isTruncated s = true.
Proof.
  unfold firstTruncated. intros H. apply find_some in H. exact H.
Qed.

Lemma firstTruncated_none (leaves : list (string * string)) :
  firstTruncated leaves = None ->
  forall p s, In (p, s) leaves -> isTruncated s = false.
Proof.
  unfold firstTruncated. intros H p s Hin.
  exact (find_none _ _ H (p, s) Hin).
Qed.

Lemma stringLeaves_array_item (items : list Json) (s path : string) :
  In (JString s) items ->
  exists p, In (p, s) (stringLeaves (JArray items) path).
Proof.
  cbn [stringLeaves]. generalize 0 as index.
  induction items as [|item items IH]; intros index Hin; [destruct Hin |].
  destruct Hin as [-> | Hin].
  - exists (indexPath path index). cbn. now left.
  - destruct (IH (S index) Hin) as [p Hp]. exists p.
    apply in_or_app. now right.
Qed.

Lemma stringLeaves_object_field (entries : list (string * Json))
      (key s path : string) :
  In (key, JString s) entries ->
  exists p, In (p, s) (stringLeaves (JObject entries) path).
Proof.
  cbn [stringLeaves].
  induction entries as [|[k v] entries IH]; intros Hin; [destruct Hin |].
  destruct Hin as [E | Hin].
  - inversion E; subst. exists (keyPath path key). cbn. now left.
  - destruct (IH Hin) as [p Hp]. exists p. apply in_or_app. now right.
Qed.

Lemma stringLeaves_nested_item (before after : list (string * Json))
      (items : list Json) (key s path : string) :
  In (JString s) items ->
  exists p,
    In (p, s) (stringLeaves (JObject (before ++ (key, JArray items) :: after)) path).
Proof.
  intros Hin.
  destruct (stringLeaves_array_item items s (keyPath path key) Hin) as [p Hp].
  exists p. cbn [stringLeaves].
  induction before as [|[k v] before IH]; cbn [app].
  - apply in_or_app. now left.
  - apply in_or_app. right. exact IH.
Qed.

(** ** Claims about the truncation detector and the recursive check *)

(** C3, as stated with "word character" in the sense of the class [\w]:
    the text [See step 1]] ends, once trimmed, with the word character
    [1] followed by a closing bracket, and the detector does not flag it. *)
Lemma word_character_bracket_not_flagged :
  trim "See step 1]" = "See step " ++ String "1" (String "]" "")
  /\ isWordChar "1" = true
  /\ isBracketClass "]" = true
  /\ isTruncated "See step 1]" = false.
Proof. repeat split. Qed.

(** C3, amended: for every text whose trimmed form ends with an ASCII
    letter (a-z, A-Z) immediately followed by one of the characters
    [{], [[] or []], the detector returns true; and for every complete,
    properly punctuated sentence, that is a text whose trimmed form ends
    with [.], [!] or [?], it returns false. *)
Theorem isTruncated_letter_bracket_and_sentence :
  (forall text pre a b,
      trim text = pre ++ String a (String b "") ->
      isLetter a = true -> isBracketClass b = true ->
      isTruncated text = true)
  /\ (forall text pre c,
         trim text = pre ++ String c "" ->
         isSentenceEnd c = true ->
         isTruncated text = false).
Proof.
  split.
  - exact isTruncated_letter_bracket.
  - intros text pre c Ht Hc.
    destruct (isSentenceEnd_plain c Hc) as [Hb Hw].
    exact (isTruncated_plain_end text pre c Ht Hb Hw).
Qed.

Lemma isTruncated_letter_bracket_and_sentence_witness :
  isTruncated "  The recipient may feel frustrat{ " = true
  /\ isTruncated "Can you send the document? " = false.
Proof.
  split.
  - apply (proj1 isTruncated_letter_bracket_and_sentence
             "  The recipient may feel frustrat{ "
             "The recipient may feel frustra" "t"%char "{"%char); reflexivity.
  - apply (proj2 isTruncated_letter_bracket_and_sentence
             "Can you send the document? "
             "Can you send the document" "?"%char); reflexivity.
Defined.

(** C7: for every text in which the opening braces outnumber the closing
    ones, or the opening brackets outnumber the closing ones, and whose
    trimmed form ends with [{] or [[] (possibly followed by white space,
    in the trimmed form or in the text itself), the detector returns
    true. *)
Theorem isTruncated_unclosed_structure (text pre ws : string) (c : ascii) :
  countChar "}" text < countChar "{" text
  \/ countChar "]" text < countChar "[" text ->
  trim text = pre ++ String c ws \/ text = pre ++ String c ws ->
  c = "{"%char \/ c = "["%char ->
  isBlank ws = true ->
  isTruncated text = true.
Proof.
  intros Hcount Hends Hc Hws.
  assert (Hopen : isOpenClass c = true) by (destruct Hc; subst c; reflexivity).
  assert (Hns : isWhiteSpace c = false)
    by (apply isBracketClass_not_space; now apply isOpenClass_bracket).
  assert (Ht : exists pre' ws',
             trim text = pre' ++ String c ws' /\ isBlank ws' = true).
  { destruct Hends as [H | ->].
    - now exists pre, ws.
    - destruct (trim_keeps_last pre ws c Hns Hws) as [pre' H].
      now exists pre', "". }
  clear Hends. destruct Ht as (pre' & ws' & Ht & Hws').
  unfold isTruncated.
  rewrite (truthy_of_trim _ _ _ _ Ht).
  rewrite !countChar_trim by reflexivity.
  rewrite Ht, length_app_cons. cbn [negb orb].
  rewrite (openThenSpacePattern_intro pre' ws' c Hopen Hws'), !orb_true_r.
  assert (Hlt : (countChar "}" text <? countChar "{" text)
                || (countChar "]" text <? countChar "[" text) = true).
  { apply orb_true_iff.
    destruct Hcount as [H|H]; [left | right]; now apply Nat.ltb_lt. }
  rewrite Hlt. cbn [andb].
  destruct (incompleteWordPattern _); [reflexivity |].
  destruct (incompleteSentencePattern _); reflexivity.
Qed.

Lemma isTruncated_unclosed_structure_witness :
  countChar "]" "The options are: 1 [ " < countChar "[" "The options are: 1 [ "
  /\ isTruncated "The options are: 1 [ " = true.
Proof.
  split; [cbn; lia |].
  apply (isTruncated_unclosed_structure
           "The options are: 1 [ " "The options are: 1 " " " "["%char);
    [right; cbn; lia | right; reflexivity | now right | reflexivity].
Defined.

(** The leaves of a record are those of its values, each reached under
    [<path>.<key>]. *)
Lemma stringLeaves_object_paths (entries : list (string * Json)) (path : string) :
  stringLeaves (JObject entries) path
  = flat_map (fun entry => stringLeaves (snd entry) (path ++ "." ++ fst entry))
             entries.
Proof.
  cbn [stringLeaves].
  induction entries as [|[key value] entries IH]; [reflexivity |].
  cbn [flat_map fst snd]. now rewrite IH.
Qed.

(** The leaves of an array are those of its items, the item at position
    [n] reached under [<path>[n]]. *)
Lemma stringLeaves_array_paths (items : list Json) (path : string) :
  stringLeaves (JArray items) path
  = flat_map (fun item =>
                stringLeaves (snd item) (path ++ "[" ++ ofNat (fst item) ++ "]"))
             (combine (seq 0 (length items)) items).
Proof.
  cbn [stringLeaves]. generalize 0 as index.
  induction items as [|item items IH]; intros index; [reflexivity |].
  cbn [length seq combine flat_map fst snd]. now rewrite IH.
Qed.

(** C6: the check flags a structure exactly when at least one of its
    string leaves, reached through arrays and nested records, is flagged
    by the detector.  The error it throws names the offending path: its
    message is [Truncated text detected at <path>: "<first 50
    characters>..."] for the first flagged leaf, where the path of a leaf
    is the starting path followed by [.<key>] for each record entered and
    [[<index>]] for each array entered.  A flagged string sitting in an
    array, or in an array inside a record, is caught as a flagged field of
    the root record is. *)
Theorem validateNoTruncation_flags_iff_truncated_leaf (data : Json) (path : string) :
  let quote := String "034"%char EmptyString in
  let report := fun p s : string =>
    ThrowError (mkError ("Truncated text detected at " ++ p ++ ": " ++ quote
                         ++ substring 0 50 s ++ "..." ++ quote)) in
  ((exists e, validateNoTruncation data path = Throw e) <->
   (exists p s, In (p, s) (stringLeaves data path) /\ isTruncated s = true))
  /\ (forall e, validateNoTruncation data path = Throw e ->
             exists p s,
               In (p, s) (stringLeaves data path)
               /\ isTruncated s = true
               /\ firstTruncated (stringLeaves data path) = Some (p, s)
               /\ e = report p s)
  /\ ((forall s, stringLeaves (JString s) path = [(path, s)])
      /\ (forall entries,
            stringLeaves (JObject entries) path
            = flat_map (fun entry =>
                          stringLeaves (snd entry) (path ++ "." ++ fst entry))
                       entries)
      /\ (forall items,
            stringLeaves (JArray items) path
            = flat_map (fun item =>
                          stringLeaves (snd item)
                                       (path ++ "[" ++ ofNat (fst item) ++ "]"))
                       (combine (seq 0 (length items)) items))
      /\ (forall b q,
            stringLeaves JNull path = []
            /\ stringLeaves (JBool b) path = []
            /\ stringLeaves (JNumber q) path = []))
  /\ (forall s, isTruncated s = true ->
        validateNoTruncation (JString s) path = Throw (report path s)
        /\ (forall key,
              validateNoTruncation (JObject [(key, JString s)]) path
              = Throw (report (path ++ "." ++ key) s))
        /\ (forall key,
              validateNoTruncation
                (JObject [(key, JArray [JString s])]) path
              = Throw (report (path ++ "." ++ key ++ "[0]") s))
        /\ (forall entries key, In (key, JString s) entries ->
              exists e, validateNoTruncation (JObject entries) path = Throw e)
        /\ (forall items, In (JString s) items ->
              exists e, validateNoTruncation (JArray items) path = Throw e)
        /\ (forall before after key items, In (JString s) items ->
              exists e,
                validateNoTruncation
                  (JObject (before ++ (key, JArray items) :: after)) path
                = Throw e)).
Proof.
  intros quote report.
  assert (Hflag : forall d, (exists p s, In (p, s) (stringLeaves d path)
                                          /\ isTruncated s = true) ->
                            exists e, validateNoTruncation d path = Throw e).
  { intros d (p & s & Hin & Hs).
    rewrite validateNoTruncation_firstTruncated.
    destruct (firstTruncated (stringLeaves d path)) as [[p' s']|] eqn:E.
    - eexists. reflexivity.
    - rewrite (firstTruncated_none _ E p s Hin) in Hs. discriminate. }
  assert (Hpath : forall e, validateNoTruncation data path = Throw e ->
             exists p s,
               In (p, s) (stringLeaves data path)
               /\ isTruncated s = true
               /\ firstTruncated (stringLeaves data path) = Some (p, s)
               /\ e = report p s).
  { intros e. rewrite validateNoTruncation_firstTruncated.
    destruct (firstTruncated (stringLeaves data path)) as [[p s]|] eqn:E;
      cbn [verdictOf]; intros H; [| discriminate].
    destruct (firstTruncated_some _ _ _ E) as [Hin Hs].
    exists p, s. repeat split; auto. now inversion H. }
  split; [split | split; [exact Hpath | split]].
  - intros [e He]. destruct (Hpath e He) as (p & s & Hin & Hs & _).
    now exists p, s.
  - apply Hflag.
  - split; [reflexivity | split; [| split]].
    + intros entries. apply stringLeaves_object_paths.
    + intros items. apply stringLeaves_array_paths.
    + intros b q. repeat split.
  - intros s Hs. split; [| split; [| split; [| split; [| split]]]].
    + cbn [validateNoTruncation]. now rewrite Hs.
    + intros key. cbn [validateNoTruncation]. now rewrite Hs.
    + intros key. cbn [validateNoTruncation]. rewrite Hs.
      unfold report, truncationMessage, indexPath, keyPath.
      now rewrite !append_assoc.
    + intros entries key Hin. apply Hflag.
      destruct (stringLeaves_object_field entries key s path Hin) as [p Hp].
      now exists p, s.
    + intros items Hin. apply Hflag.
      destruct (stringLeaves_array_item items s path Hin) as [p Hp].
      now exists p, s.
    + intros before after key items Hin. apply Hflag.
      destruct (stringLeaves_nested_item before after items key s path Hin)
        as [p Hp].
      now exists p, s.
Qed.

(** C10: the detector never flags an empty or white-space-only string, so
    an empty string field never makes a structure fail the check: a
    structure whose string leaves are each blank or unflagged passes. *)
Theorem isTruncated_blank_false :
  (forall text, isBlank text = true -> isTruncated text = false)
  /\ (forall data path,
        (forall p s, In (p, s) (stringLeaves data path) ->
                     isBlank s = true \/ isTruncated s = false) ->
        validateNoTruncation data path = Return tt).
Proof.
  assert (Hblank : forall text, isBlank text = true -> isTruncated text = false).
  { intros text H. unfold isTruncated. rewrite (trim_blank _ H).
    now rewrite orb_true_r. }
  split; [exact Hblank |].
  intros data path Hall. rewrite validateNoTruncation_firstTruncated.
  destruct (firstTruncated (stringLeaves data path)) as [[p s]|] eqn:E;
    [| reflexivity].
  destruct (firstTruncated_some _ _ _ E) as [Hin Hs].
  destruct (Hall p s Hin) as [H | H]; [apply Hblank in H |]; congruence.
Qed.

(** ** Constrained generator *)

Lemma modelPromptsOf_app (l1 l2 : list Event) :
  modelPromptsOf (l1 ++ l2) = (modelPromptsOf l1 ++ modelPromptsOf l2)%list.
Proof.
  induction l1 as [|e l1 IH]; [reflexivity |].
  destruct e; cbn; now rewrite ?IH.
Qed.

Lemma manualParsesOf_app (l1 l2 : list Event) :
  manualParsesOf (l1 ++ l2) = (manualParsesOf l1 ++ manualParsesOf l2)%list.
Proof.
  induction l1 as [|e l1 IH]; [reflexivity |].
  destruct e; cbn; now rewrite ?IH.
Qed.


(** Case analysis on every test and call a run goes through, innermost
    first. *)
Ltac run_cases :=
  repeat (cbv beta; cbn [fst snd world trace];
          match goal with
          | |- context [match ?x with _ => _ end] =>
              lazymatch x with
              | context [match _ with _ => _ end] => fail
              | _ => destruct x eqn:?
              end
          end);
  cbv beta; cbn [fst snd world trace].

Ltac unfold_generator :=
  unfold generateWithSchema, catchBlock, afterResponse, newLlamaChatSession,
    promptSession, logRequest, logResponse, logError, bind, emit, call, ret,
    throw in *.

Section GeneratorProperties.
Context {World : Type}.
Variable lib : ValidationModule.
Variable grammar : LlamaJsonSchemaGrammar.
Variable validator : ValidateFunction.
Variable dependencies : GeneratorDependencies World.
Variable options : GenerationOptions.
Variable analysisType : option AnalysisType.

Local Abbreviation generate :=
  (generateWithSchema lib grammar validator dependencies options analysisType).

(** A log call returns, leaves the world alone and adds log entries
    only. *)
Lemma logError_run (msg : string) (attempt : option nat) (st : State World) :
  exists entries,
    logError dependencies analysisType msg attempt st
    = (Return tt, mkState (world st) (trace st ++ entries))
    /\ modelPromptsOf entries = []
    /\ manualParsesOf entries = [].
Proof.
  unfold logError. destruct (logTarget dependencies analysisType) as [[s t]|].
  - eexists. split; [reflexivity | split; reflexivity].
  - exists []. cbn. rewrite app_nil_r. destruct st; auto.
Qed.

(** One call of the generator hands exactly one prompt to the model:
    the one it was given. *)
Lemma generateWithSchema_one_prompt (prompt : string) (st : State World) :
  modelPromptsOf (trace (snd (generate prompt st)))
  = (modelPromptsOf (trace st) ++ [prompt])%list.
Proof.
  unfold_generator. run_cases;
    repeat rewrite modelPromptsOf_app; cbn [modelPromptsOf app];
    rewrite ?app_nil_r; reflexivity.
Qed.


(** C9: every value the generator returns, rather than throws,
    satisfies the schema validator, whether it comes from the grammar
    parse or from the lenient fallback parse. *)
Theorem generateWithSchema_returns_validated
        (prompt : string) (st st' : State World) (value : Json) :
  generate prompt st = (Return value, st') ->
  validate validator value = true.
Proof.
  unfold_generator. run_cases; intros H; inversion H; subst;
    auto; now apply negb_false_iff.
Qed.

(** C5: when the model produced a non-empty raw output and the grammar's
    parser fails on it, throwing an [Error], the generator makes exactly
    one lenient parse,
    of that raw output; it returns the leniently parsed value only when
    that value passes the same validator, and otherwise the error of the
    grammar's parser propagates. *)
Theorem generateWithSchema_fallback_parse
        (prompt response : string) (st : State World) (w : World)
        (e : JsError) :
  contextSequence dependencies (systemPromptFor analysisType) prompt grammar
                  (maxTokensToUse dependencies options)
                  (temperatureToUse options) (world st)
  = (Return response, w) ->
  truthy response = true ->
  grammar_parse grammar response = Throw (ThrowError e) ->
  manualParsesOf (trace (snd (generate prompt st)))
  = (manualParsesOf (trace st) ++ [response])%list
  /\ fst (generate prompt st)
     = match parseJSON lib response with
       | Return manualParsed =>
           if validate validator manualParsed
           then Return manualParsed
           else Throw (ThrowError e)
       | Throw _ => Throw (ThrowError e)
       end.
Proof.
  intros Hmodel Hraw Hparse. unfold_generator.
  destruct (logTarget dependencies analysisType) as [[session type]|];
    cbv beta; cbn [fst snd world trace];
    rewrite Hmodel, Hraw; cbv beta; cbn [fst snd world trace];
    rewrite Hparse; cbn [instanceofError andb];
    rewrite ?Hraw; cbv beta; cbn [fst snd world trace];
    (destruct (parseJSON lib response) as [manualParsed|parseError];
     [destruct (validate validator manualParsed) |]);
    cbv beta; cbn [fst snd world trace];
    (split; [| reflexivity]);
    repeat rewrite manualParsesOf_app; cbn [manualParsesOf app];
    rewrite ?app_nil_r; reflexivity.
Qed.

(** The [catch] block also receives the error raised for a truncated
    value.  When the lenient parser reads the raw output as the grammar's
    parser did, the flagged value is returned all the same. *)
Lemma generateWithSchema_truncation_bypassed
      (prompt response : string) (st : State World) (w : World)
      (parsed : Json) (truncationError : Thrown) :
  contextSequence dependencies (systemPromptFor analysisType) prompt grammar
                  (maxTokensToUse dependencies options)
                  (temperatureToUse options) (world st)
  = (Return response, w) ->
  truthy response = true ->
  grammar_parse grammar response = Return parsed ->
  validate validator parsed = true ->
  validateNoTruncation parsed "root" = Throw truncationError ->
  parseJSON lib response = Return parsed ->
  fst (generate prompt st) = Return parsed.
Proof.
  intros Hmodel Hraw Hparse Hvalid Htrunc Hmanual. unfold_generator.
  destruct (logTarget dependencies analysisType) as [[session type]|];
    cbv beta; cbn [fst snd world trace];
    rewrite Hmodel, Hraw; cbv beta; cbn [fst snd world trace];
    rewrite Hparse; cbv beta; cbn [fst snd world trace];
    rewrite Hvalid; cbn [negb]; rewrite Htrunc;
    cbv beta; cbn [fst snd world trace instanceofError andb];
    rewrite ?Hraw; cbv beta; cbn [fst snd world trace];
    rewrite Hmanual, Hvalid; reflexivity.
Qed.

End GeneratorProperties.

(** ** Retry controller *)

Section RetryProperties.
Context {World : Type}.
Variable lib : ValidationModule.
Variable grammar : LlamaJsonSchemaGrammar.
Variable validator : ValidateFunction.
Variable dependencies : GeneratorDependencies World.
Variable options : GenerationOptions.
Variable analysisType : option AnalysisType.
Variable promptBuilder : string -> option string -> string.
Variable buildRetryPrompt : string -> string -> string.
Variable userMessage : string.
Variable context : option string.

Local Abbreviation generate :=
  (generateWithSchema lib grammar validator dependencies options analysisType).
Local Abbreviation retry :=
  (generateWithRetry lib grammar validator dependencies options analysisType
                     promptBuilder buildRetryPrompt userMessage context).
Local Abbreviation basePrompt := (promptBuilder userMessage context).
Local Abbreviation secondPrompt e1 :=
  (buildRetryPrompt (promptBuilder userMessage context)
                    (lastErrorMessage (Some (asError e1)))).
Local Abbreviation noteFailure :=
  (logAttemptFailure dependencies analysisType).

Lemma logAttemptFailure_run (attempt : nat) (lastError : JsError)
      (st : State World) :
  exists entries,
    noteFailure attempt lastError st
    = (Return tt, mkState (world st) (trace st ++ entries))
    /\ modelPromptsOf entries = []
    /\ manualParsesOf entries = [].
Proof. apply logError_run. Qed.

(** The loop, unrolled: a first attempt with the base prompt and, when it
    throws, a second one with the retry prompt; nothing after that. *)
Lemma generateWithRetry_run (st : State World) :
  retry st =
  match generate basePrompt st with
  | (Return value, st1) => (Return value, st1)
  | (Throw e1, st1) =>
      match generate (secondPrompt e1) (snd (noteFailure 1 (asError e1) st1)) with
      | (Return value, st2) => (Return value, st2)
      | (Throw e2, st2) =>
          (Throw (ThrowError (mkError ("Failed after 2 attempts: "
                                       ++ message (asError e2)))),
           snd (noteFailure 2 (asError e2) st2))
      end
  end.
Proof.
  unfold generateWithRetry, maxAttempts. cbn [attemptLoop].
  unfold maxAttempts. cbn [Nat.eqb].
  destruct (generate basePrompt st) as [[value|e1] st1]; [reflexivity |].
  unfold bind at 1.
  destruct (logAttemptFailure_run 1 (asError e1) st1) as (en1 & -> & _).
  cbn [snd].
  destruct (generate _ _) as [[value|e2] st2]; [reflexivity |].
  unfold bind at 1.
  destruct (logAttemptFailure_run 2 (asError e2) st2) as (en2 & -> & _).
  reflexivity.
Qed.

Lemma prompts_after_failure (attempt : nat) (e : JsError) (st : State World) :
  modelPromptsOf (trace (snd (noteFailure attempt e st)))
  = modelPromptsOf (trace st).
Proof.
  destruct (logAttemptFailure_run attempt e st) as (entries & -> & Hp & _).
  cbn. now rewrite modelPromptsOf_app, Hp, app_nil_r.
Qed.

(** The prompts of a whole run: the base prompt, then, only when the
    first attempt threw [e1], the retry prompt built from it. *)
Lemma retry_prompts_issued (st : State World) :
  modelPromptsOf (trace (snd (retry st)))
  = (modelPromptsOf (trace st)
     ++ match generate basePrompt st with
        | (Return _, _) => [basePrompt]
        | (Throw e1, _) => [basePrompt; secondPrompt e1]
        end)%list.
Proof.
  rewrite generateWithRetry_run.
  pose proof (generateWithSchema_one_prompt lib grammar validator
                dependencies options analysisType basePrompt st) as H1.
  destruct (generate basePrompt st) as [[value|e1] st1]; cbn [snd] in *;
    [exact H1 |].
  pose proof (generateWithSchema_one_prompt lib grammar validator
                dependencies options analysisType (secondPrompt e1)
                (snd (noteFailure 1 (asError e1) st1))) as H2.
  rewrite prompts_after_failure, H1, <- app_assoc in H2. cbn [app] in H2.
  destruct (generate (secondPrompt e1) _) as [[value|e2] st2]; cbn [snd] in *;
    [exact H2 |].
  rewrite prompts_after_failure. exact H2.
Qed.

(** C2: one facet generation hands at most two prompts to the model,
    whatever the failures are; when the second attempt fails too, exactly
    two were handed over and the run ends by throwing an error. *)
Theorem generateWithRetry_at_most_two_attempts (st : State World) :
  length (modelPromptsOf (trace (snd (retry st))))
  <= length (modelPromptsOf (trace st)) + 2
  /\ (forall e1 st1 e2 st2,
        generate basePrompt st = (Throw e1, st1) ->
        generate (secondPrompt e1) (snd (noteFailure 1 (asError e1) st1))
        = (Throw e2, st2) ->
        length (modelPromptsOf (trace (snd (retry st))))
        = length (modelPromptsOf (trace st)) + 2
        /\ exists final, fst (retry st) = Throw (ThrowError final)).
Proof.
  split.
  - rewrite retry_prompts_issued, length_app.
    destruct (generate basePrompt st) as [[value|e1] st1]; cbn; lia.
  - intros e1 st1 e2 st2 H1 H2. split.
    + rewrite retry_prompts_issued, length_app, H1. reflexivity.
    + rewrite generateWithRetry_run, H1, H2. eexists. reflexivity.
Qed.




End RetryProperties.

(** ** The claims on the intent facet with a scripted model *)

(** C1: a generation call that returns a value whose string leaf the
    detector flags.  The model answers with an object whose [primary]
    field is cut off; the grammar parses it, the validator accepts it, the
    truncation check throws, and the [catch] block then re-parses the raw
    output leniently, validates it and returns it without a truncation
    check.  The same happens when only the lenient parser can read the
    output. *)
Theorem generateWithSchema_returns_truncated_value :
  fst (Scenario.generate "Analyze the intent of: I will handle it."
         (Scenario.start [Return (Scenario.intentText Scenario.cutOff)]))
  = Return (Scenario.intentValue Scenario.cutOff)
  /\ fst (Scenario.generate "Analyze the intent of: I will handle it."
            (Scenario.start
               [Return (Scenario.fenced (Scenario.intentText Scenario.cutOff))]))
     = Return (Scenario.intentValue Scenario.cutOff)
  /\ stringLeaves (Scenario.intentValue Scenario.cutOff) "root"
     = [("root.primary", Scenario.cutOff)]
  /\ isTruncated Scenario.cutOff = true
  /\ validateNoTruncation (Scenario.intentValue Scenario.cutOff) "root"
     = Throw (ThrowError (mkError
                (truncationMessage "root.primary" Scenario.cutOff))).
Proof. repeat split; vm_compute; reflexivity. Qed.


(** ** The theorems at work *)

Lemma validateNoTruncation_flags_iff_truncated_leaf_witness :
  let data :=
    JObject [("alternatives",
              JArray [JObject [("badge", JString "Softer.");
                               ("text", JString "Could you send it, please?")];
                      JObject [("badge", JString "Warmer.");
                               ("text", JString "I would be very grateful if you could possibly send the docu{")]])] in
  let quote := String "034"%char EmptyString in
  In ("root.alternatives[1].text", "I would be very grateful if you could possibly send the docu{")
     (stringLeaves data "root")
  /\ isTruncated "I would be very grateful if you could possibly send the docu{" = true
  /\ validateNoTruncation data "root"
     = Throw (ThrowError (mkError
         ("Truncated text detected at root.alternatives[1].text: " ++ quote
          ++ "I would be very grateful if you could possibly sen..." ++ quote))).
Proof.
  intros data quote. split; [| split].
  - cbn. do 3 right. left. reflexivity.
  - reflexivity.
  - destruct (validateNoTruncation_flags_iff_truncated_leaf data "root")
      as [[_ Hflag] [Hpath _]].
    destruct Hflag as [e He].
    + exists "root.alternatives[1].text",
        "I would be very grateful if you could possibly send the docu{".
      split; [cbn; do 3 right; left; reflexivity | reflexivity].
    + rewrite He. destruct (Hpath e He) as (p & s & _ & _ & Hfirst & ->).
      vm_compute in Hfirst. inversion Hfirst. reflexivity.
Defined.

Lemma isTruncated_blank_false_witness :
  isBlank "   " = true
  /\ isTruncated "   " = false
  /\ validateNoTruncation
       (JObject [("primary", JString ""); ("secondary", JString "  ");
                 ("implied", JArray [JString "A request."])]) "root"
     = Return tt.
Proof.
  split; [reflexivity | split].
  - apply (proj1 isTruncated_blank_false "   "). reflexivity.
  - apply (proj2 isTruncated_blank_false
             (JObject [("primary", JString ""); ("secondary", JString "  ");
                       ("implied", JArray [JString "A request."])])
             "root").
    intros p s [H | [H | [H | []]]]; inversion H; [left | left | right];
      reflexivity.
Defined.

Lemma generateWithSchema_returns_validated_witness :
  let st := Scenario.start [Return (Scenario.intentText Scenario.complete)] in
  Scenario.generate "Analyze the intent of: Can you send the document?" st
  = (Return (Scenario.intentValue Scenario.complete),
     snd (Scenario.generate "Analyze the intent of: Can you send the document?" st))
  /\ validate Scenario.intentValidator (Scenario.intentValue Scenario.complete)
     = true.
Proof.
  cbv zeta. split; [reflexivity |].
  apply (generateWithSchema_returns_validated
           Scenario.validationLib Scenario.intentGrammar
           Scenario.intentValidator Scenario.deps Scenario.noOptions
           (Some Intent)
           "Analyze the intent of: Can you send the document?"
           (Scenario.start [Return (Scenario.intentText Scenario.complete)])
           (snd (Scenario.generate
                   "Analyze the intent of: Can you send the document?"
                   (Scenario.start
                      [Return (Scenario.intentText Scenario.complete)])))).
  reflexivity.
Defined.

Lemma generateWithSchema_fallback_parse_witness :
  let raw := Scenario.fenced (Scenario.intentText Scenario.complete) in
  let st := Scenario.start [Return raw] in
  grammar_parse Scenario.intentGrammar raw = Throw Scenario.syntaxError
  /\ manualParsesOf (trace (snd (Scenario.generate "Analyze." st))) = [raw]
  /\ fst (Scenario.generate "Analyze." st)
     = Return (Scenario.intentValue Scenario.complete).
Proof.
  cbv zeta. split; [reflexivity |].
  apply (generateWithSchema_fallback_parse
           Scenario.validationLib Scenario.intentGrammar
           Scenario.intentValidator Scenario.deps Scenario.noOptions
           (Some Intent) "Analyze."
           (Scenario.fenced (Scenario.intentText Scenario.complete))
           (Scenario.start
              [Return (Scenario.fenced (Scenario.intentText Scenario.complete))])
           [] (mkError "Unexpected token in JSON"));
    reflexivity.
Defined.

Lemma generateWithRetry_at_most_two_attempts_witness :
  let st := Scenario.start [Return (Scenario.intentText ""); Return "oops"] in
  let run := Scenario.generateRetrying "Can you send the document?" st in
  length (modelPromptsOf (trace (snd run))) = 2
  /\ exists final, fst run = Throw (ThrowError final).
Proof.
  cbv zeta.
  pose (st := Scenario.start [Return (Scenario.intentText ""); Return "oops"]).
  pose (base := Scenario.intentPrompt "Can you send the document?" None).
  pose (e1 := ThrowError (mkError
          "Validation failed: /primary: must NOT have fewer than 1 characters")).
  pose (st1 := snd (Scenario.generate base st)).
  pose (st1' := snd (logAttemptFailure Scenario.deps (Some Intent) 1
                                       (asError e1) st1)).
  pose (second := Scenario.retryPrompt base (lastErrorMessage (Some (asError e1)))).
  exact (proj2 (generateWithRetry_at_most_two_attempts
                  Scenario.validationLib Scenario.intentGrammar
                  Scenario.intentValidator Scenario.deps Scenario.noOptions
                  (Some Intent) Scenario.intentPrompt Scenario.retryPrompt
                  "Can you send the document?" None st)
               e1 st1
               (ThrowError (mkError "Unexpected token in JSON"))
               (snd (Scenario.generate second st1'))
               ltac:(vm_compute; reflexivity)
               ltac:(vm_compute; reflexivity)).
Defined.



(* ===================================================================== *)
(** * Further properties of the code *)
(* ===================================================================== *)

(** ** Trimming *)

Lemma isBlank_app (s1 s2 : string) :
  isBlank (s1 ++ s2) = isBlank s1 && isBlank s2.
Proof.
  unfold isBlank. now rewrite list_ascii_of_string_app, forallb_app.
Qed.

Lemma append_empty_r (s : string) : s ++ "" = s.
Proof. induction s as [|c s IH]; cbn; [reflexivity | now rewrite IH]. Qed.

(** What [trimEnd] returns is empty or ends with a character that is not
    white space. *)
Lemma trimEnd_shape (s : string) :
  trimEnd s = ""
  \/ exists pre c, trimEnd s = pre ++ String c "" /\ isWhiteSpace c = false.
Proof.
  induction s as [|d s IH]; cbn [trimEnd]; [now left |].
  destruct IH as [-> | (pre & c & -> & Hc)].
  - destruct (isWhiteSpace d) eqn:Hd; [now left | right].
    now exists "", d.
  - right. exists (String d pre), c. split; [| exact Hc].
    destruct pre; reflexivity.
Qed.

Lemma trim_shape (text : string) :
  trim text = ""
  \/ exists pre c, trim text = pre ++ String c "" /\ isWhiteSpace c = false.
Proof. apply trimEnd_shape. Qed.

(** What [trimStart] returns is empty or starts with a character that is
    not white space. *)
Lemma trimStart_shape (s : string) :
  trimStart s = ""
  \/ exists c rest, trimStart s = String c rest /\ isWhiteSpace c = false.
Proof.
  induction s as [|d s IH]; cbn [trimStart]; [now left |].
  destruct (isWhiteSpace d) eqn:Hd; [exact IH | right]. now exists d, s.
Qed.

Lemma trimStart_fixed (c : ascii) (rest : string) :
  isWhiteSpace c = false -> trimStart (String c rest) = String c rest.
Proof. intros H. cbn. now rewrite H. Qed.

Lemma trimEnd_head (c : ascii) (rest : string) :
  isWhiteSpace c = false ->
  exists rest', trimEnd (String c rest) = String c rest'.
Proof.
  intros H. cbn [trimEnd]. destruct (trimEnd rest).
  - rewrite H. now exists "".
  - eexists. reflexivity.
Qed.

Lemma trim_idempotent (s : string) : trim (trim s) = trim s.
Proof.
  unfold trim at 2 3.
  destruct (trimStart_shape s) as [-> | (c & rest & -> & Hc)]; [reflexivity |].
  destruct (trimEnd_head c rest Hc) as [rest' Hhead].
  destruct (trimEnd_shape (String c rest)) as [E | (pre & d & E & Hd)].
  - now rewrite E.
  - unfold trim. rewrite Hhead, (trimStart_fixed c rest' Hc), <- Hhead, E.
    now apply trimEnd_keeps.
Qed.

Lemma trimStart_app (s t : string) :
  trimStart (s ++ t) = if isBlank s then trimStart t else trimStart s ++ t.
Proof.
  unfold isBlank. induction s as [|c s IH]; cbn; [reflexivity |].
  destruct (isWhiteSpace c); [exact IH | reflexivity].
Qed.

Lemma trimEnd_app_blank (s trail : string) :
  isBlank trail = true -> trimEnd (s ++ trail) = trimEnd s.
Proof.
  intros H. induction s as [|c s IH]; cbn [append trimEnd].
  - now apply trimEnd_blank.
  - now rewrite IH.
Qed.

(** White space around a text does not change its trimmed form. *)
Lemma trim_padding (lead text trail : string) :
  isBlank lead = true -> isBlank trail = true ->
  trim (lead ++ text ++ trail) = trim text.
Proof.
  intros Hl Ht. unfold trim.
  rewrite trimStart_app, Hl, trimStart_app.
  destruct (isBlank text) eqn:Hb.
  - now rewrite (trimStart_blank trail Ht), (trimStart_blank text Hb).
  - now apply trimEnd_app_blank.
Qed.

(** The detector looks at the trimmed form only. *)
Lemma isTruncated_trim_eq (s1 s2 : string) :
  trim s1 = trim s2 -> isTruncated s1 = isTruncated s2.
Proof.
  intros H. unfold isTruncated. rewrite H.
  destruct (trim_shape s2) as [E | (pre & c & E & _)].
  - now rewrite E, !orb_true_r.
  - rewrite (truthy_of_trim s2 pre "" c E).
    rewrite <- H in E. now rewrite (truthy_of_trim s1 pre "" c E).
Qed.

(** ** Truncation detector, further *)

Lemma string_of_list_ascii_app (l1 l2 : list ascii) :
  string_of_list_ascii (l1 ++ l2)
  = string_of_list_ascii l1 ++ string_of_list_ascii l2.
Proof. induction l1 as [|c l1 IH]; cbn; [reflexivity | now rewrite IH]. Qed.

Lemma fromEnd_cons_inv (pre : string) (a : ascii) (l : list ascii) :
  fromEnd pre = a :: l -> exists pre', pre = pre' ++ String a "".
Proof.
  unfold fromEnd. intros H.
  exists (string_of_list_ascii (rev l)).
  rewrite <- (string_of_list_ascii_of_string pre).
  rewrite <- (rev_involutive (list_ascii_of_string pre)), H.
  cbn [rev]. now rewrite string_of_list_ascii_app.
Qed.

(** The verdict on a text whose trimmed form ends with [c]: only the first
    pattern and the unclosed-structure test matter. *)
Lemma isTruncated_shape (text pre : string) (c : ascii) :
  trim text = pre ++ String c "" -> isWhiteSpace c = false ->
  isTruncated text =
  match fromEnd pre with
  | a :: _ => isLetter a && isBracketClass c
  | [] => false
  end
  || hasUnclosedOpening text && isOpenClass c.
Proof.
  intros Ht Hw. unfold isTruncated.
  rewrite (truthy_of_trim _ _ _ _ Ht).
  rewrite !countChar_trim by reflexivity.
  rewrite Ht, length_app_cons. cbn [negb orb].
  unfold incompleteWordPattern, incompleteSentencePattern, incompleteWordEnd,
    openThenSpacePattern, endsWith.
  rewrite fromEnd_last. cbn [dropWhile]. rewrite Hw.
  change (isPrefixOf (fromEnd "{") (c :: fromEnd pre))
    with (Ascii.eqb "{" c && true).
  change (isPrefixOf (fromEnd "[") (c :: fromEnd pre))
    with (Ascii.eqb "[" c && true).
  rewrite (Ascii.eqb_sym "{" c), (Ascii.eqb_sym "[" c).
  fold (hasUnclosedOpening text).
  unfold isOpenClass, isBracketClass, isLetter.
  destruct (fromEnd pre) as [|a l];
    [| destruct (isLower a), (isUpper a)];
    destruct (hasUnclosedOpening text), (Ascii.eqb c "{"), (Ascii.eqb c "["),
      (Ascii.eqb c "]"); reflexivity.
Qed.

(** X1: the detector flags a text exactly when its trimmed form ends with
    one of [{], [[], []] that follows an ASCII letter, or ends with [{] or
    [[] while the text has more opening braces than closing ones or more
    opening brackets than closing ones.  In particular a text cut off
    without such a character at its end is never flagged. *)
Theorem isTruncated_exactly (text : string) :
  isTruncated text = true <->
  exists pre b,
    trim text = pre ++ String b ""
    /\ ((isBracketClass b = true
         /\ exists pre' a, pre = pre' ++ String a "" /\ isLetter a = true)
        \/ (isOpenClass b = true
            /\ (countChar "}" text < countChar "{" text
                \/ countChar "]" text < countChar "[" text))).
Proof.
  split.
  - intros H. destruct (trim_shape text) as [E | (pre & c & E & Hc)].
    + unfold isTruncated in H. rewrite E, orb_true_r in H. discriminate.
    + rewrite (isTruncated_shape text pre c E Hc) in H.
      exists pre, c. split; [exact E |].
      apply orb_true_iff in H as [H | H].
      * left. destruct (fromEnd pre) as [|a l] eqn:Hpre; [discriminate |].
        apply andb_true_iff in H as [Ha Hb]. split; [exact Hb |].
        destruct (fromEnd_cons_inv pre a l Hpre) as [pre' ->].
        now exists pre', a.
      * right. apply andb_true_iff in H as [Hu Ho]. split; [exact Ho |].
        unfold hasUnclosedOpening in Hu.
        apply orb_true_iff in Hu as [Hu | Hu]; apply Nat.ltb_lt in Hu; auto.
  - intros (pre & b & E & H).
    assert (Hb : isWhiteSpace b = false).
    { apply isBracketClass_not_space.
      destruct H as [[H _] | [H _]]; [exact H | now apply isOpenClass_bracket]. }
    rewrite (isTruncated_shape text pre b E Hb).
    destruct H as [[Hbr (pre' & a & -> & Ha)] | [Ho Hu]].
    + now rewrite fromEnd_last, Ha, Hbr.
    + assert (Hun : hasUnclosedOpening text = true).
      { unfold hasUnclosedOpening. apply orb_true_iff.
        destruct Hu as [Hu | Hu]; [left | right]; now apply Nat.ltb_lt. }
      rewrite Hun, Ho. apply orb_true_r.
Qed.

(** X2: white space before and after a text does not change the verdict
    of the detector, and neither does trimming the text first. *)
Theorem isTruncated_padding (lead text trail : string) :
  isBlank lead = true -> isBlank trail = true ->
  isTruncated (lead ++ text ++ trail) = isTruncated text
  /\ isTruncated (trim text) = isTruncated text.
Proof.
  intros Hl Ht. split; apply isTruncated_trim_eq.
  - now apply trim_padding.
  - apply trim_idempotent.
Qed.

Lemma isTruncated_padding_witness :
  isTruncated ("  " ++ "It feels rush{" ++ " ") = isTruncated "It feels rush{"
  /\ isTruncated (trim "It feels rush{") = isTruncated "It feels rush{".
Proof.
  apply (isTruncated_padding "  " "It feels rush{" " "); reflexivity.
Defined.

(** X3: the second pattern, the fourth pattern, the regular-expression
    alternative of the unclosed-structure test and the emptiness test on
    the untrimmed text never decide: the detector is the length guard, the
    first pattern and the unclosed-structure test with the two [endsWith]
    calls. *)
Theorem isTruncated_deciding_tests (text : string) :
  isTruncated text =
  if String.length (trim text) =? 0 then false
  else incompleteWordPattern (trim text)
       || hasUnclosedOpening (trim text)
          && (endsWith (trim text) "{" || endsWith (trim text) "[").
Proof.
  destruct (trim_shape text) as [E | (pre & c & E & Hc)].
  - unfold isTruncated. now rewrite E, orb_true_r.
  - rewrite (isTruncated_shape text pre c E Hc).
    unfold hasUnclosedOpening. rewrite !countChar_trim by reflexivity.
    rewrite E, length_app_cons.
    unfold incompleteWordPattern, endsWith. rewrite fromEnd_last.
    change (isPrefixOf (fromEnd "{") (c :: fromEnd pre))
      with (Ascii.eqb "{" c && true).
    change (isPrefixOf (fromEnd "[") (c :: fromEnd pre))
      with (Ascii.eqb "[" c && true).
    rewrite (Ascii.eqb_sym "{" c), (Ascii.eqb_sym "[" c), !andb_true_r.
    reflexivity.
Qed.

(** ** Recursive truncation check, further *)

(** The texts of the string leaves do not depend on the path the
    traversal starts from. *)
Lemma leaf_texts_path (data : Json) :
  forall p1 p2,
    map snd (stringLeaves data p1) = map snd (stringLeaves data p2).
Proof.
  induction data as [ | b | q | s | items IH | entries IH ]
    using Json_nested_ind; intros p1 p2; try reflexivity.
  - cbn [stringLeaves]. generalize 0 as index.
    induction IH as [|item items Hitem _ IHitems]; intros index;
      [reflexivity |].
    rewrite !map_app.
    now rewrite (Hitem (indexPath p1 index) (indexPath p2 index)), IHitems.
  - cbn [stringLeaves].
    induction IH as [|[key value] entries Hvalue _ IHentries];
      [reflexivity |].
    cbn [snd] in Hvalue. rewrite !map_app.
    now rewrite (Hvalue (keyPath p1 key) (keyPath p2 key)), IHentries.
Qed.

(** An object and the array of its values have the same leaf texts. *)
Lemma leaf_texts_object (entries : list (string * Json)) (p q : string) :
  map snd (stringLeaves (JObject entries) p)
  = map snd (stringLeaves (JArray (map snd entries)) q).
Proof.
  cbn [stringLeaves]. generalize 0 as index.
  induction entries as [|[key value] entries IH]; intros index;
    [reflexivity |].
  cbn [map snd]. rewrite !map_app.
  now rewrite (leaf_texts_path value (keyPath p key) (indexPath q index)),
    (IH (S index)).
Qed.

Lemma isReturn_verdictOf (leaves : list (string * string)) :
  isReturn (verdictOf (firstTruncated leaves))
  = negb (existsb isTruncated (map snd leaves)).
Proof.
  unfold firstTruncated.
  induction leaves as [|[p s] leaves IH]; [reflexivity |].
  cbn [find map existsb snd]. destruct (isTruncated s); [reflexivity | exact IH].
Qed.

(** The outcome of the check as a test on the leaf texts. *)
Lemma validateNoTruncation_passes (data : Json) (path : string) :
  isReturn (validateNoTruncation data path)
  = negb (existsb isTruncated (map snd (stringLeaves data path))).
Proof.
  rewrite validateNoTruncation_firstTruncated. apply isReturn_verdictOf.
Qed.

(** X4: whether the check passes depends neither on the path it is
    started with nor on the keys of the records: property names are never
    examined, and a record passes exactly when the array of its values
    does. *)
Theorem validateNoTruncation_ignores_path_and_keys :
  (forall data p1 p2,
      isReturn (validateNoTruncation data p1)
      = isReturn (validateNoTruncation data p2))
  /\ (forall entries p q,
        isReturn (validateNoTruncation (JObject entries) p)
        = isReturn (validateNoTruncation (JArray (map snd entries)) q)).
Proof.
  split.
  - intros data p1 p2. rewrite !validateNoTruncation_passes.
    now rewrite (leaf_texts_path data p1 p2).
  - intros entries p q. rewrite !validateNoTruncation_passes.
    now rewrite (leaf_texts_object entries p q).
Qed.

(** X5: when the items before position [n] of an array field pass the
    check and the item at position [n] is a flagged string, the error
    names that position: its message is the one for the path
    [<path>.<key>[n]] and quotes the first 50 characters of the string. *)
Theorem validateNoTruncation_reports_index
        (path key s : string) (before after : list Json) :
  (forall item p, In item before -> validateNoTruncation item p = Return tt) ->
  isTruncated s = true ->
  validateNoTruncation
    (JObject [(key, JArray (before ++ JString s :: after))]) path
  = Throw (ThrowError (mkError
      ("Truncated text detected at "
       ++ indexPath (keyPath path key) (length before)
       ++ ": " ++ dquote ++ substring 0 50 s ++ "..." ++ dquote))).
Proof.
  intros Hbefore Hs.
  change (validateNoTruncation
            (JObject [(key, JArray (before ++ JString s :: after))]) path
          = Throw (ThrowError (mkError
              (truncationMessage
                 (indexPath (keyPath path key) (length before)) s)))).
  cbn [validateNoTruncation].
  change (length before) with (0 + length before).
  generalize 0 as index.
  induction before as [|item before IH]; intros index.
  - cbn [app length]. rewrite Nat.add_0_r. cbn [validateNoTruncation].
    rewrite Hs. reflexivity.
  - cbn [app length].
    rewrite (Hbefore item (indexPath (keyPath path key) index) (or_introl eq_refl)).
    assert (Hrest : forall item' p, In item' before ->
                                    validateNoTruncation item' p = Return tt)
      by (intros item' p Hin; apply Hbefore; now right).
    specialize (IH Hrest (S index)).
    replace (index + S (length before)) with (S index + length before) by lia.
    destruct (_ : Result unit) eqn:E in IH |- *; exact IH.
Qed.

(** ** Constrained generator, further *)

Lemma grammarParsesOf_app (l1 l2 : list Event) :
  grammarParsesOf (l1 ++ l2) = (grammarParsesOf l1 ++ grammarParsesOf l2)%list.
Proof.
  induction l1 as [|e l1 IH]; [reflexivity |].
  destruct e; cbn; now rewrite ?IH.
Qed.

(** Normal form of the projections of a trace built by appending. *)
Ltac trace_projections :=
  repeat rewrite modelPromptsOf_app;
  repeat rewrite manualParsesOf_app;
  repeat rewrite grammarParsesOf_app;
  cbn [modelPromptsOf manualParsesOf grammarParsesOf app];
  rewrite ?app_nil_r.

Section GeneratorFurther.
Context {World : Type}.
Variable lib : ValidationModule.
Variable grammar : LlamaJsonSchemaGrammar.
Variable validator : ValidateFunction.
Variable dependencies : GeneratorDependencies World.
Variable options : GenerationOptions.
Variable analysisType : option AnalysisType.

Local Abbreviation generate :=
  (generateWithSchema lib grammar validator dependencies options analysisType).

(** What the model is asked, in a given state of the world. *)
Local Abbreviation askModel prompt st :=
  (contextSequence dependencies (systemPromptFor analysisType) prompt grammar
                   (maxTokensToUse dependencies options)
                   (temperatureToUse options) (world st)).

Lemma generate_return_valid (prompt : string) (st st' : State World) (value : Json) :
  generate prompt st = (Return value, st') -> validate validator value = true.
Proof.
  unfold_generator. run_cases; intros H; inversion H; subst;
    auto; now apply negb_false_iff.
Qed.

(** X6: when the model call itself throws, the generator rethrows that
    very error, leaves the world as the call left it, and parses nothing,
    neither with the grammar nor leniently. *)
Theorem generateWithSchema_model_failure
        (prompt : string) (st : State World) (error : Thrown) (w : World) :
  askModel prompt st = (Throw error, w) ->
  fst (generate prompt st) = Throw error
  /\ world (snd (generate prompt st)) = w
  /\ grammarParsesOf (trace (snd (generate prompt st)))
     = grammarParsesOf (trace st)
  /\ manualParsesOf (trace (snd (generate prompt st)))
     = manualParsesOf (trace st).
Proof.
  intros Hmodel. unfold_generator.
  destruct (logTarget dependencies analysisType) as [[session type]|];
    cbv beta; cbn [fst snd world trace]; rewrite Hmodel;
    cbv beta; cbn [fst snd world trace];
    repeat split; trace_projections; reflexivity.
Qed.

(** X7: the lenient parse needs a non-empty raw output and an [Error]
    instance.  When the grammar's parser throws on an empty output, or
    throws something that is not an [Error], no lenient parse is made and
    what it threw propagates. *)
Theorem generateWithSchema_no_fallback
        (prompt response : string) (st : State World) (error : Thrown)
        (w : World) :
  askModel prompt st = (Return response, w) ->
  grammar_parse grammar response = Throw error ->
  truthy response = false \/ instanceofError error = false ->
  fst (generate prompt st) = Throw error
  /\ manualParsesOf (trace (snd (generate prompt st)))
     = manualParsesOf (trace st).
Proof.
  intros Hmodel Hparse Hwhy. unfold_generator.
  destruct (logTarget dependencies analysisType) as [[session type]|];
    cbv beta; cbn [fst snd world trace]; rewrite Hmodel;
    cbv beta; cbn [fst snd world trace];
    destruct (truthy response) eqn:Hraw;
    cbv beta; cbn [fst snd world trace]; rewrite Hparse;
    cbv beta; cbn [fst snd world trace];
    (destruct Hwhy as [Hw | Hw]; [try discriminate Hw |]);
    rewrite ?Hw, ?andb_false_r; cbn [andb];
    cbv beta; cbn [fst snd world trace];
    split; trace_projections; reflexivity.
Qed.

(** X8: when the grammar parses the raw output, the validator accepts the
    value and no string leaf is flagged, the generator returns that value
    after one grammar parse and no lenient parse. *)
Theorem generateWithSchema_accepts
        (prompt response : string) (st : State World) (parsed : Json)
        (w : World) :
  askModel prompt st = (Return response, w) ->
  grammar_parse grammar response = Return parsed ->
  validate validator parsed = true ->
  validateNoTruncation parsed "root" = Return tt ->
  fst (generate prompt st) = Return parsed
  /\ world (snd (generate prompt st)) = w
  /\ grammarParsesOf (trace (snd (generate prompt st)))
     = (grammarParsesOf (trace st) ++ [response])%list
  /\ manualParsesOf (trace (snd (generate prompt st)))
     = manualParsesOf (trace st).
Proof.
  intros Hmodel Hparse Hvalid Hcheck. unfold_generator.
  destruct (logTarget dependencies analysisType) as [[session type]|];
    cbv beta; cbn [fst snd world trace]; rewrite Hmodel;
    cbv beta; cbn [fst snd world trace];
    destruct (truthy response);
    cbv beta; cbn [fst snd world trace]; rewrite Hparse;
    cbv beta; cbn [fst snd world trace]; rewrite Hvalid; cbn [negb];
    rewrite Hcheck; cbv beta; cbn [fst snd world trace];
    repeat split; trace_projections; reflexivity.
Qed.

(** X9: the errors the generator can throw.  What it throws is what the
    model call threw, or what the grammar's parser threw, or the error
    [Validation failed: <formatted errors>] for a parsed value the
    validator rejects, or the error [Response appears truncated: <message
    of the check>] for a validated value with a flagged leaf. *)
Theorem generateWithSchema_thrown_errors
        (prompt : string) (st : State World) (error : Thrown) :
  fst (generate prompt st) = Throw error ->
  (exists w, askModel prompt st = (Throw error, w))
  \/ exists response w,
       askModel prompt st = (Return response, w)
       /\ (grammar_parse grammar response = Throw error
           \/ exists parsed,
                grammar_parse grammar response = Return parsed
                /\ ((validate validator parsed = false
                     /\ error = ThrowError (mkError
                          ("Validation failed: "
                           ++ formatValidationErrors lib
                                (errorsAfter validator parsed))))
                    \/ (validate validator parsed = true
                        /\ exists flagged,
                             validateNoTruncation parsed "root" = Throw flagged
                             /\ error = ThrowError (mkError
                                  ("Response appears truncated: "
                                   ++ messageOrString flagged))))).
Proof.
  unfold_generator.
  destruct (logTarget dependencies analysisType) as [[session type]|];
    cbv beta; cbn [fst snd world trace];
    (destruct (askModel prompt st) as [[response | thrown] w] eqn:Hmodel;
     cbv beta; cbn [fst snd world trace];
     [| intros H; inversion H; subst; left; now exists w]);
    intros H; right; exists response, w; (split; [reflexivity |]);
    revert H;
    (destruct (grammar_parse grammar response) as [parsed | thrown] eqn:Hparse;
     [right; exists parsed; split; [reflexivity |] | left]);
    revert H; run_cases; intros H; inversion H; subst; auto;
    try (left; split; [now apply negb_true_iff | reflexivity]);
    try (right; split; [now apply negb_false_iff |];
         eexists; split; reflexivity).
Qed.

(** X10: a rejection on the grammar path is not final.  When the grammar
    parsed a non-empty raw output and the validator or the truncation
    check rejected the value, the raw output is parsed leniently once, and
    the leniently parsed value is returned if the validator accepts it;
    only otherwise is the rejection thrown. *)
Theorem generateWithSchema_rejection_overridden
        (prompt response : string) (st : State World) (parsed : Json)
        (w : World) (rejection : JsError) :
  askModel prompt st = (Return response, w) ->
  truthy response = true ->
  grammar_parse grammar response = Return parsed ->
  (validate validator parsed = false
   /\ rejection = mkError ("Validation failed: "
                           ++ formatValidationErrors lib
                                (errorsAfter validator parsed)))
  \/ (validate validator parsed = true
      /\ exists flagged,
           validateNoTruncation parsed "root" = Throw flagged
           /\ rejection = mkError ("Response appears truncated: "
                                   ++ messageOrString flagged)) ->
  fst (generate prompt st)
  = match parseJSON lib response with
    | Return manualParsed =>
        if validate validator manualParsed
        then Return manualParsed
        else Throw (ThrowError rejection)
    | Throw _ => Throw (ThrowError rejection)
    end
  /\ manualParsesOf (trace (snd (generate prompt st)))
     = (manualParsesOf (trace st) ++ [response])%list.
Proof.
  intros Hmodel Hraw Hparse Hrej. unfold_generator.
  destruct (logTarget dependencies analysisType) as [[session type]|];
    cbv beta; cbn [fst snd world trace]; rewrite Hmodel, Hraw;
    cbv beta; cbn [fst snd world trace]; rewrite Hparse;
    cbv beta; cbn [fst snd world trace];
    (destruct Hrej as [[Hv ->] | [Hv (flagged & Hf & ->)]];
     rewrite Hv; cbn [negb]; rewrite ?Hf);
    cbv beta; cbn [fst snd world trace instanceofError andb];
    rewrite ?Hraw; cbv beta; cbn [fst snd world trace];
    (destruct (parseJSON lib response) as [manualParsed | parseError];
     [destruct (validate validator manualParsed) |]);
    cbv beta; cbn [fst snd world trace];
    (split; [reflexivity |]); trace_projections; reflexivity.
Qed.

Lemma modelRequestsOf_app (l1 l2 : list Event) :
  modelRequestsOf (l1 ++ l2)
  = (modelRequestsOf l1 ++ modelRequestsOf l2)%list.
Proof.
  induction l1 as [|e l1 IH]; [reflexivity |].
  destruct e; cbn; now rewrite ?IH.
Qed.

(** X11: what the generator asks of the model.  Every [session.prompt]
    call of [generateWithSchema] is made on a session whose system prompt
    is the one for rewriting when the analysis type is [alternatives] and
    the general one otherwise, with the prompt the generator was given,
    the grammar it was given, [maxTokens ?? contextSize] as token limit
    and the temperature of the options, 0.7 when they give none.  The
    world after the call is the world this request leaves, whatever
    parsing and validation then do. *)
Theorem generateWithSchema_request (prompt : string) (st : State World) :
  let quote := String "034"%char EmptyString in
  let systemPrompt :=
    match analysisType with
    | Some Alternatives =>
        "You are a communication analysis expert specializing in rewriting messages. You MUST generate complete alternatives with ALL fields filled in. NEVER return empty strings ("
        ++ quote ++ quote ++
        ") for any field. Every badge, text, reason, and tag must contain actual content. CRITICAL: All text fields must be COMPLETE - never truncate mid-word or mid-sentence. Always respond with valid, complete JSON only."
    | _ =>
        "You are a communication analysis expert. Always respond with valid, complete JSON only. Generate all required items - do not return empty arrays or incomplete responses. CRITICAL: All text fields must be COMPLETE - never truncate mid-word or mid-sentence. Every field must end with complete words and proper punctuation."
    end in
  let tokens :=
    match maxTokens options with
    | Some n => n
    | None => contextSize dependencies
    end in
  let temp :=
    match temperature options with
    | Some t => t
    | None => 7 # 10
    end in
  world (snd (generate prompt st))
  = snd (contextSequence dependencies systemPrompt prompt grammar tokens temp
                         (world st))
  /\ (forall request,
        In request (modelRequestsOf (trace (snd (generate prompt st)))) ->
        In request (modelRequestsOf (trace st))
        \/ request = (systemPrompt, prompt)).
Proof.
  intros quote systemPrompt tokens temp.
  assert (Hsystem : systemPromptFor analysisType = systemPrompt)
    by (unfold systemPrompt; destruct analysisType as [[| | |]|]; reflexivity).
  change tokens with (maxTokensToUse dependencies options).
  change temp with (temperatureToUse options).
  rewrite <- Hsystem. clear Hsystem systemPrompt.
  split.
  - unfold_generator. run_cases; reflexivity.
  - intros request.
    assert (Hrequests :
              modelRequestsOf (trace (snd (generate prompt st)))
              = (modelRequestsOf (trace st)
                 ++ [(systemPromptFor analysisType, prompt)])%list).
    { unfold_generator. run_cases;
        repeat rewrite modelRequestsOf_app; cbn [modelRequestsOf app];
        rewrite ?app_nil_r; reflexivity. }
    rewrite Hrequests, in_app_iff. cbn [In].
    intros [Hold | [Hnew | []]]; [now left | right; now symmetry].
Qed.

End GeneratorFurther.

(** ** Retry controller, further *)

Section RetryFurther.
Context {World : Type}.
Variable lib : ValidationModule.
Variable grammar : LlamaJsonSchemaGrammar.
Variable validator : ValidateFunction.
Variable options : GenerationOptions.
Variable analysisType : option AnalysisType.
Variable promptBuilder : string -> option string -> string.
Variable buildRetryPrompt : string -> string -> string.
Variable userMessage : string.
Variable context : option string.

Local Abbreviation generateWith deps :=
  (generateWithSchema lib grammar validator deps options analysisType).
Local Abbreviation retryWith deps :=
  (generateWithRetry lib grammar validator deps options analysisType
                     promptBuilder buildRetryPrompt userMessage context).

Lemma logAttemptFailure_world
      (deps : GeneratorDependencies World) (attempt : nat) (e : JsError)
      (st : State World) :
  world (snd (logAttemptFailure deps analysisType attempt e st)) = world st.
Proof.
  destruct (logAttemptFailure_run deps analysisType attempt e st)
    as (entries & -> & _).
  reflexivity.
Qed.

(** The outcome of a call and the world it leaves depend on the model
    and on the context size, not on the logger or the session. *)
Lemma generate_logging_independent
      (deps1 deps2 : GeneratorDependencies World) (prompt : string)
      (st1 st2 : State World) :
  contextSequence deps1 = contextSequence deps2 ->
  contextSize deps1 = contextSize deps2 ->
  world st1 = world st2 ->
  fst (generateWith deps1 prompt st1) = fst (generateWith deps2 prompt st2)
  /\ world (snd (generateWith deps1 prompt st1))
     = world (snd (generateWith deps2 prompt st2)).
Proof.
  intros Hseq Hsize Hworld. unfold_generator. unfold maxTokensToUse.
  rewrite Hseq, Hsize.
  destruct (logTarget deps1 analysisType) as [[session1 type1]|],
           (logTarget deps2 analysisType) as [[session2 type2]|];
    cbv beta; cbn [fst snd world trace]; rewrite Hworld;
    run_cases; split; reflexivity.
Qed.

(** X12: logging has no effect on behaviour.  Two runs against the same
    model, started in the same state of the world, give the same result
    and leave the same world whether or not a logger and a session
    identifier are supplied: this holds for one generation call and for
    the whole retry loop. *)
Theorem logging_is_observational
        (deps1 deps2 : GeneratorDependencies World) (st1 st2 : State World) :
  contextSequence deps1 = contextSequence deps2 ->
  contextSize deps1 = contextSize deps2 ->
  world st1 = world st2 ->
  (forall prompt,
      fst (generateWith deps1 prompt st1) = fst (generateWith deps2 prompt st2)
      /\ world (snd (generateWith deps1 prompt st1))
         = world (snd (generateWith deps2 prompt st2)))
  /\ fst (retryWith deps1 st1) = fst (retryWith deps2 st2)
  /\ world (snd (retryWith deps1 st1)) = world (snd (retryWith deps2 st2)).
Proof.
  intros Hseq Hsize Hworld.
  split; [intros prompt; now apply generate_logging_independent |].
  rewrite !generateWithRetry_run.
  destruct (generate_logging_independent deps1 deps2
              (promptBuilder userMessage context) st1 st2 Hseq Hsize Hworld)
    as [Hr Hw].
  destruct (generateWith deps1 _ st1) as [[v1|e1] s1],
           (generateWith deps2 _ st2) as [[v2|e2] s2];
    cbn [fst snd] in Hr, Hw; try discriminate Hr; [now split |].
  inversion Hr; subst e2.
  assert (Hw' : world (snd (logAttemptFailure deps1 analysisType 1 (asError e1) s1))
                = world (snd (logAttemptFailure deps2 analysisType 1 (asError e1) s2)))
    by (now rewrite !logAttemptFailure_world).
  destruct (generate_logging_independent deps1 deps2
              (buildRetryPrompt (promptBuilder userMessage context)
                                (lastErrorMessage (Some (asError e1))))
              _ _ Hseq Hsize Hw')
    as [Hr2 Hw2].
  destruct (generateWith deps1 _ (snd (logAttemptFailure deps1 _ _ _ s1)))
    as [[v1|e2] t1],
           (generateWith deps2 _ (snd (logAttemptFailure deps2 _ _ _ s2)))
    as [[v2|e2'] t2];
    cbn [fst snd] in Hr2, Hw2 |- *; try discriminate Hr2; [now split |].
  inversion Hr2; subst e2'. split; [reflexivity |].
  now rewrite !logAttemptFailure_world.
Qed.

Variable dependencies : GeneratorDependencies World.

(** X13: every value the retry loop returns satisfies the schema
    validator, on whichever attempt it was produced. *)
Theorem generateWithRetry_returns_validated
        (st : State World) (value : Json) :
  fst (retryWith dependencies st) = Return value ->
  validate validator value = true.
Proof.
  rewrite generateWithRetry_run.
  destruct (generateWith dependencies _ st) as [[v1|e1] st1] eqn:H1.
  - cbn [fst]. intros H. inversion H; subst.
    exact (generate_return_valid _ _ _ _ _ _ _ _ _ _ H1).
  - destruct (generateWith dependencies (buildRetryPrompt _ _) _)
      as [[v2|e2] st2] eqn:H2;
      cbn [fst]; intros H; inversion H; subst.
    exact (generate_return_valid _ _ _ _ _ _ _ _ _ _ H2).
Qed.

(** X14: the retry loop throws only its own final error, and only after
    two attempts.  Whatever it throws is an [Error] whose message is
    [Failed after 2 attempts: ] followed by the message of the error of
    the second attempt; no error of an attempt escapes unwrapped, and the
    statement after the loop is never reached. *)
Theorem generateWithRetry_throws_final_only
        (st : State World) (error : Thrown) :
  fst (retryWith dependencies st) = Throw error ->
  (exists reason,
      error = ThrowError (mkError ("Failed after 2 attempts: " ++ reason)))
  /\ length (modelPromptsOf (trace (snd (retryWith dependencies st))))
     = length (modelPromptsOf (trace st)) + 2.
Proof.
  rewrite retry_prompts_issued, length_app, generateWithRetry_run.
  destruct (generateWith dependencies _ st) as [[v1|e1] st1];
    cbn [fst]; [discriminate |].
  destruct (generateWith dependencies (buildRetryPrompt _ _) _)
    as [[v2|e2] st2];
    cbn [fst]; [discriminate |].
  intros H. inversion H; subst. split; [| reflexivity].
  now exists (message (asError e2)).
Qed.

End RetryFurther.

(** ** The logger *)

Module LlmLoggerFacts.
Import LlmLogger.

Lemma splitLines_cons (c : ascii) (rest : string) :
  Ascii.eqb c newline = false ->
  exists line more,
    splitLines rest = line :: more
    /\ splitLines (String c rest) = String c line :: more.
Proof.
  intros Hc. cbn [splitLines]. rewrite Hc.
  destruct rest as [|d rest']; cbn [splitLines].
  - now exists "", [].
  - destruct (Ascii.eqb d newline).
    + eexists. eexists. split; reflexivity.
    + destruct (splitLines rest') as [|line more].
      * eexists. eexists. split; reflexivity.
      * eexists. eexists. split; reflexivity.
Qed.

Lemma splitLines_single (line : string) :
  noNewline line -> splitLines line = [line].
Proof.
  unfold noNewline.
  induction line as [|c line IH]; cbn [countChar splitLines]; [reflexivity |].
  destruct (Ascii.eqb c newline); [intros H; discriminate H |].
  intros H. now rewrite (IH H).
Qed.

Lemma splitLines_app (line rest : string) :
  noNewline line ->
  splitLines (line ++ nl ++ rest) = line :: splitLines rest.
Proof.
  unfold noNewline. induction line as [|c line IH]; cbn [append countChar].
  - intros _. unfold nl. cbn [append splitLines]. now rewrite Ascii.eqb_refl.
  - destruct (Ascii.eqb c newline) eqn:Hc; [intros H; discriminate H |].
    intros H. cbn [splitLines]. rewrite Hc, (IH H). reflexivity.
Qed.

Lemma splitLines_noNewline (s : string) : Forall noNewline (splitLines s).
Proof.
  induction s as [|c s IH]; cbn [splitLines].
  - repeat constructor.
  - destruct (Ascii.eqb c newline) eqn:Hc.
    + constructor; [reflexivity | exact IH].
    + destruct (splitLines s) as [|line more]; [repeat constructor |].
      * unfold noNewline. cbn [countChar]. now rewrite Hc.
      * inversion IH; subst. constructor; [| assumption].
        unfold noNewline in *. cbn [countChar]. now rewrite Hc.
Qed.

Lemma splitLines_joinLines (lines : list string) :
  lines <> [] -> Forall noNewline lines ->
  splitLines (joinLines lines) = lines.
Proof.
  unfold joinLines. induction lines as [|line lines IH]; [congruence |].
  intros _ Hall. inversion Hall as [|? ? Hline Hrest]; subst.
  destruct lines as [|next lines].
  - cbn. now apply splitLines_single.
  - change (String.concat nl (line :: next :: lines))
      with (line ++ nl ++ String.concat nl (next :: lines)).
    rewrite (splitLines_app _ _ Hline), IH; [reflexivity | congruence | exact Hrest].
Qed.

Lemma joinLines_splitLines (s : string) : joinLines (splitLines s) = s.
Proof.
  unfold joinLines. induction s as [|c s IH]; [reflexivity |].
  cbn [splitLines]. destruct (Ascii.eqb_spec c newline) as [-> | Hc].
  - destruct (splitLines s) as [|line more] eqn:E.
    + destruct s; cbn in E; [discriminate |].
      destruct (Ascii.eqb a newline); [discriminate |].
      destruct (splitLines s); discriminate.
    + change (String.concat nl ("" :: line :: more))
        with ("" ++ nl ++ String.concat nl (line :: more)).
      rewrite IH. reflexivity.
  - destruct (splitLines s) as [|line more] eqn:E.
    + destruct s; cbn in E; [discriminate |].
      destruct (Ascii.eqb a newline); [discriminate |].
      destruct (splitLines s); discriminate.
    + destruct more as [|next more].
      * cbn in IH |- *. now rewrite IH.
      * change (String.concat nl (String c line :: next :: more))
          with (String c (line ++ nl ++ String.concat nl (next :: more))).
        change (String.concat nl (line :: next :: more))
          with (line ++ nl ++ String.concat nl (next :: more)) in IH.
        now rewrite IH.
Qed.

Lemma splitLines_not_nil (s : string) : splitLines s <> [].
Proof.
  destruct s as [|c s]; cbn [splitLines]; [discriminate |].
  destruct (Ascii.eqb c newline); [discriminate |].
  destruct (splitLines s); discriminate.
Qed.

(** X15: indentation keeps the lines of a prompt or response apart: the
    indented text has the same lines, each preceded by two spaces, so
    none of them can be taken for the separator [---] or for a header;
    and joining the lines of a text gives the text back. *)
Theorem indentLines_lines (text : string) :
  splitLines (indentLines text) = map (fun line => "  " ++ line) (splitLines text)
  /\ joinLines (splitLines text) = text
  /\ Forall (fun line => String.prefix "  " line = true)
            (splitLines (indentLines text)).
Proof.
  assert (Hsplit : splitLines (indentLines text)
                   = map (fun line => "  " ++ line) (splitLines text)).
  { unfold indentLines. apply splitLines_joinLines.
    - pose proof (splitLines_not_nil text) as H.
      destruct (splitLines text); [congruence | discriminate].
    - apply Forall_map.
      eapply Forall_impl; [| apply splitLines_noNewline].
      intros line H. unfold noNewline in *. cbn. exact H. }
  split; [exact Hsplit | split; [apply joinLines_splitLines |]].
  rewrite Hsplit. apply Forall_map. apply Forall_forall.
  intros line _. cbn. destruct line; reflexivity.
Qed.

Lemma joinLines_cons (line : string) (rest : list string) :
  rest <> [] -> joinLines (line :: rest) = line ++ nl ++ joinLines rest.
Proof. destruct rest; [congruence | reflexivity]. Qed.

Lemma joinLines_last (lines : list string) (final : string) :
  lines <> [] -> joinLines (lines ++ [final]) = joinLines lines ++ nl ++ final.
Proof.
  induction lines as [|line lines IH]; [congruence |]. intros _.
  destruct lines as [|next lines]; [reflexivity |].
  change ((line :: next :: lines) ++ [final])%list
    with (line :: ((next :: lines) ++ [final]))%list.
  rewrite (joinLines_cons line ((next :: lines) ++ [final]))
    by (cbn; discriminate).
  rewrite IH by discriminate.
  rewrite (joinLines_cons line (next :: lines)) by discriminate.
  now rewrite !append_assoc.
Qed.

Lemma joinLines_app (before after : list string) :
  before <> [] -> after <> [] ->
  joinLines (before ++ after)
  = joinLines before ++ nl ++ joinLines after.
Proof.
  intros Hb Ha. induction before as [|line before IH]; [congruence |].
  destruct before as [|next before].
  - cbn [app]. now apply joinLines_cons.
  - change ((line :: next :: before) ++ after)%list
      with (line :: ((next :: before) ++ after))%list.
    rewrite (joinLines_cons line ((next :: before) ++ after))
      by (cbn; discriminate).
    rewrite IH by discriminate.
    rewrite (joinLines_cons line (next :: before)) by discriminate.
    now rewrite !append_assoc.
Qed.

(** Pushing a text of several lines as one element gives the same file
    text as pushing its lines one by one. *)
Lemma joinLines_nested (before lines after : list string) :
  before <> [] -> lines <> [] -> after <> [] ->
  joinLines (before ++ [joinLines lines] ++ after)
  = joinLines (before ++ lines ++ after).
Proof.
  intros Hb Hl Ha.
  rewrite (joinLines_app before ([joinLines lines] ++ after) Hb)
    by discriminate.
  rewrite (joinLines_app before (lines ++ after) Hb)
    by (destruct lines; [congruence | discriminate]).
  rewrite (joinLines_app [joinLines lines] after) by (discriminate || exact Ha).
  rewrite (joinLines_app lines after Hl Ha).
  reflexivity.
Qed.

Lemma splitLines_append (a b : string) :
  splitLines (a ++ nl ++ b) = (splitLines a ++ splitLines b)%list.
Proof.
  induction a as [|c a IH].
  - unfold nl. cbn [append splitLines app]. now rewrite Ascii.eqb_refl.
  - cbn [append splitLines]. rewrite IH.
    destruct (Ascii.eqb c newline); [reflexivity |].
    pose proof (splitLines_not_nil a) as Hne.
    destruct (splitLines a) as [|line more]; [congruence | reflexivity].
Qed.

(** The lines of a response as the log shows them, before indentation. *)
Lemma splitLines_loggedResponse (response : string) :
  splitLines (loggedResponse response)
  = if 5000 <? String.length response
    then (splitLines (substring 0 5000 response)
          ++ ["  ... (truncated)"])%list
    else splitLines response.
Proof.
  unfold loggedResponse, responseLimit.
  destruct (5000 <? String.length response); [| reflexivity].
  now rewrite splitLines_append.
Qed.

(** X16: the text written for a response entry.  It is made of the header
    line [[<timestamp>] RESPONSE (<analysis type>)], with [ [Attempt <n>]]
    appended for a non-zero attempt number; the line [Model: <name>] when
    the model name is not empty; the line [Response:]; the lines of the
    response, each preceded by two spaces; and the separator line [---].
    Of a response longer than 5000 characters only the lines of its first
    5000 characters are written, followed by the line
    [    ... (truncated)]. *)
Theorem logResponse_text
        (numberToString : Q -> string) (stamp model : string)
        (type : AnalysisType) (response : string) (attempt : option nat) :
  response <> "" ->
  let header :=
    "[" ++ stamp ++ "] RESPONSE"
    ++ match type with
       | Intent => " (intent)"
       | Tone => " (tone)"
       | Impact => " (impact)"
       | Alternatives => " (alternatives)"
       end
    ++ match attempt with
       | Some (S n) => " [Attempt " ++ ofNat (S n) ++ "]"
       | _ => ""
       end in
  let shown :=
    if 5000 <? String.length response
    then (splitLines (substring 0 5000 response)
          ++ ["  ... (truncated)"])%list
    else splitLines response in
  formatLogEntry numberToString
                 (responseEntry stamp model type response attempt)
  = joinLines ([header]
               ++ (if (model =? "")%string
                   then [] else [("Model: " ++ model)%string])
               ++ ["Response:"]
               ++ map (fun line => ("  " ++ line)%string) shown
               ++ ["---"])%list.
Proof.
  intros Hne header shown.
  assert (Hraw : truthy response = true).
  { unfold truthy. destruct (String.eqb_spec response ""); [contradiction |].
    reflexivity. }
  assert (Hshown : shown <> []).
  { unfold shown. destruct (5000 <? String.length response).
    - destruct (splitLines (substring 0 5000 response)); discriminate.
    - apply splitLines_not_nil. }
  unfold formatLogEntry, entryLines, responseEntry, headerLine, modelLines,
    optionLines, promptLines, responseLines, errorLines, present, indentLines.
  cbn [timestamp entryType entryAnalysisType entryPrompt entryResponse
       entryError entryAttempt entryModel entryOptions typeUpper].
  rewrite Hraw, splitLines_loggedResponse. fold shown.
  assert (Hheader :
            "[" ++ stamp ++ "] " ++ "RESPONSE"
            ++ (" (" ++ analysisTypeName type ++ ")")
            ++ match nonZero attempt with
               | Some n => " [Attempt " ++ ofNat n ++ "]"
               | None => ""
               end
            = header)
    by (unfold header; destruct type, attempt as [[|n]|]; reflexivity).
  rewrite Hheader.
  assert (Hmodel :
            match (if truthy model then Some model else None) with
            | Some m => [("Model: " ++ m)%string]
            | None => []
            end
            = if (model =? "")%string
              then [] else [("Model: " ++ model)%string])
    by (unfold truthy; destruct (model =? "")%string; reflexivity).
  rewrite Hmodel.
  set (modelLine := if (model =? "")%string
                    then [] else [("Model: " ++ model)%string]).
  set (indented := map (fun line => ("  " ++ line)%string) shown).
  assert (Hindented : indented <> [])
    by (unfold indented; destruct shown; [congruence | discriminate]).
  transitivity (joinLines ((header :: modelLine ++ ["Response:"])%list
                           ++ [joinLines indented] ++ ["---"])%list).
  { f_equal. cbn [app]. now rewrite <- app_assoc. }
  rewrite joinLines_nested by (discriminate || exact Hindented).
  f_equal. cbn [app]. now rewrite <- app_assoc.
Qed.

Lemma prefix_append (a b : string) : String.prefix a (a ++ b) = true.
Proof.
  induction a as [|c a IH]; cbn; [destruct b; reflexivity |].
  destruct (ascii_dec c c); [exact IH | congruence].
Qed.

Lemma isPrefixOf_app (p l : list ascii) : isPrefixOf p (p ++ l) = true.
Proof.
  induction p as [|c p IH]; cbn; [reflexivity |].
  now rewrite Ascii.eqb_refl, IH.
Qed.

Lemma endsWith_append (a b : string) : endsWith (a ++ b) b = true.
Proof. unfold endsWith. rewrite fromEnd_app. apply isPrefixOf_app. Qed.

(** X17: whatever fields an entry has, its text begins with the header
    line and ends with the separator line [---].  The header line is
    [[<timestamp>] ] followed by the type in capitals, by the analysis
    type in brackets when there is one, and by [ [Attempt <n>]] when the
    entry has a non-zero attempt number. *)
Theorem formatLogEntry_frame (numberToString : Q -> string) (entry : LLMLogEntry) :
  let header :=
    "[" ++ timestamp entry ++ "] "
    ++ match entryType entry with
       | RequestEntry => "REQUEST"
       | ResponseEntry => "RESPONSE"
       | ErrorEntry => "ERROR"
       end
    ++ match entryAnalysisType entry with
       | Some Intent => " (intent)"
       | Some Tone => " (tone)"
       | Some Impact => " (impact)"
       | Some Alternatives => " (alternatives)"
       | None => ""
       end
    ++ match entryAttempt entry with
       | Some (S n) => " [Attempt " ++ ofNat (S n) ++ "]"
       | _ => ""
       end in
  String.prefix (header ++ nl) (formatLogEntry numberToString entry) = true
  /\ endsWith (formatLogEntry numberToString entry) (nl ++ "---") = true.
Proof.
  intros header.
  assert (Hheader : headerLine entry = header).
  { unfold header, headerLine, typeUpper, analysisTypeName, nonZero.
    destruct (entryType entry), (entryAnalysisType entry) as [[| | |]|],
             (entryAttempt entry) as [[|n]|]; reflexivity. }
  unfold formatLogEntry, entryLines. rewrite Hheader.
  set (middle := (modelLines entry ++ optionLines numberToString entry
                  ++ promptLines entry ++ responseLines entry
                  ++ errorLines entry)%list).
  replace (([header] ++ modelLines entry
            ++ optionLines numberToString entry ++ promptLines entry
            ++ responseLines entry ++ errorLines entry ++ ["---"])%list)
    with ((header :: middle) ++ ["---"])%list
    by (unfold middle; cbn [app]; now rewrite <- !app_assoc).
  split.
  - cbn [app]. rewrite joinLines_cons by (destruct middle; discriminate).
    rewrite <- append_assoc. apply prefix_append.
  - rewrite joinLines_last by discriminate. apply endsWith_append.
Qed.

Lemma mapGet_mapSet_same (files : list (string * string)) (key value : string) :
  mapGet (mapSet files key value) key = Some value.
Proof.
  induction files as [|[k v] files IH]; cbn.
  - now rewrite String.eqb_refl.
  - destruct (String.eqb_spec k key) as [-> | Hk]; cbn.
    + now rewrite String.eqb_refl.
    + destruct (String.eqb_spec k key); [contradiction | exact IH].
Qed.

Lemma mapGet_mapSet_other (files : list (string * string))
      (key other value : string) :
  other <> key ->
  mapGet (mapSet files key value) other = mapGet files other.
Proof.
  intros Hne. induction files as [|[k v] files IH]; cbn.
  - destruct (String.eqb_spec key other); [congruence | reflexivity].
  - destruct (String.eqb_spec k key) as [-> | Hk]; cbn.
    + destruct (String.eqb_spec key other); [congruence | reflexivity].
    + destruct (String.eqb_spec k other); [reflexivity | exact IH].
Qed.

Section PathFacts.
Variable pathJoin : string -> string -> string.

Lemma getLogFilePath_preserves (self : LLMLogger) (session path other now : string) :
  mapGet (sessionLogFiles self) session = Some path ->
  mapGet (sessionLogFiles (snd (fst (getLogFilePath pathJoin self other now))))
         session
  = Some path.
Proof.
  intros H. unfold getLogFilePath.
  destruct (mapGet (sessionLogFiles self) other) eqn:E; cbn; [exact H |].
  rewrite mapGet_mapSet_other; [exact H |]. intros ->. congruence.
Qed.

Lemma afterPathCalls_preserves (calls : list (string * string))
      (self : LLMLogger) (session path : string) :
  mapGet (sessionLogFiles self) session = Some path ->
  mapGet (sessionLogFiles (afterPathCalls pathJoin self calls)) session
  = Some path.
Proof.
  revert self. induction calls as [|[other now] calls IH]; intros self H;
    [exact H |].
  cbn [afterPathCalls]. apply IH. now apply getLogFilePath_preserves.
Qed.

(** X18: a session keeps its log file.  After the first call for a
    session, every later call for it returns the same path, starts no new
    header and leaves the logger unchanged, whatever the time is and
    whatever calls for this or other sessions were made in between. *)
Theorem getLogFilePath_stable
        (self : LLMLogger) (session now later : string)
        (calls : list (string * string)) :
  let first := getLogFilePath pathJoin self session now in
  let logger := afterPathCalls pathJoin (snd (fst first)) calls in
  getLogFilePath pathJoin logger session later
  = (fst (fst first), logger, false).
Proof.
  cbv zeta.
  assert (Hfirst : mapGet (sessionLogFiles
                             (snd (fst (getLogFilePath pathJoin self session now))))
                          session
                   = Some (fst (fst (getLogFilePath pathJoin self session now)))).
  { unfold getLogFilePath.
    destruct (mapGet (sessionLogFiles self) session) eqn:E; cbn; [exact E |].
    apply mapGet_mapSet_same. }
  pose proof (afterPathCalls_preserves calls _ _ _ Hfirst) as Hlater.
  unfold getLogFilePath at 1. now rewrite Hlater.
Qed.

End PathFacts.

Lemma includes_prefix (s sub : string) :
  String.prefix sub s = true -> includes s sub = true.
Proof. intros H. destruct s; cbn [includes]; now rewrite H. Qed.

Lemma includes_skip (before s sub : string) :
  includes s sub = true -> includes (before ++ s) sub = true.
Proof.
  intros H. induction before as [|c before IH]; [exact H |].
  cbn [append includes]. rewrite IH. apply orb_true_r.
Qed.

(** X19: a logger created with a model path takes its model name from
    that path, yet the headers it writes say [Model Path: N/A], because
    the constructor does not store the path; only a later
    [getLLMLogger] call that names a path makes the headers show it. *)
Theorem fresh_logger_header (baseName : string -> string)
        (dir dir' : option string) (path session started : string) :
  truthy path = true ->
  let created := fst (getLLMLogger baseName None dir (Some path)) in
  let updated := fst (getLLMLogger baseName (Some created) dir' (Some path)) in
  modelName created = baseName path
  /\ includes (logHeader created session started) ("Model Path: N/A" ++ nl) = true
  /\ includes (logHeader updated session started)
              ("Model Path: " ++ path ++ nl) = true
  /\ logDir updated = logDir created.
Proof.
  intros Hpath. cbv zeta. unfold getLLMLogger, present. rewrite Hpath.
  cbn [fst newLogger setModelPath modelName modelPath logDir]. rewrite Hpath.
  assert (Hline : forall value rest,
             String.prefix ("Model Path: " ++ value ++ nl)
                           ("Model Path: " ++ value ++ nl ++ rest) = true).
  { intros value rest.
    rewrite <- (append_assoc value nl rest),
            <- (append_assoc "Model Path: " (value ++ nl) rest).
    apply prefix_append. }
  repeat split; unfold logHeader;
    cbn [modelPath modelName setModelPath newLogger];
    do 12 apply includes_skip; apply includes_prefix.
  - change (orElse "" "N/A") with "N/A". apply (Hline "N/A").
  - unfold orElse. rewrite Hpath. apply Hline.
Qed.

(** X20: [cleanupOldLogs] deletes nothing but old log files.  Every file
    it unlinks is in the listing, has a name ending in [.log], could be
    examined, and was modified strictly more than the maximum age before
    the time of the call; a file exactly that old stays. *)
Theorem cleanupOldLogs_only_old_logs
        (listing : option (list DirEntry)) (now : Z) (maxAgeDays : option Z)
        (name : string) :
  In name (cleanupOldLogs listing now maxAgeDays) ->
  exists files file modified,
    listing = Some files
    /\ In file files
    /\ fileName file = name
    /\ endsWith name ".log" = true
    /\ mtime file = Some modified
    /\ (maxAgeOf (match maxAgeDays with Some d => d | None => 30 end)
        < now - modified)%Z
    /\ removable file = true.
Proof.
  unfold cleanupOldLogs. destruct listing as [files|]; [| intros []].
  set (maxAge := maxAgeOf _). intros Hin. exists files.
  induction files as [|file files IH]; [destruct Hin |].
  cbn [sweep] in Hin.
  assert (Hrest : In name (sweep files now maxAge) ->
                  exists file0 modified,
                    Some (file :: files) = Some (file :: files)
                    /\ In file0 (file :: files) /\ fileName file0 = name
                    /\ endsWith name ".log" = true
                    /\ mtime file0 = Some modified
                    /\ (maxAge < now - modified)%Z
                    /\ removable file0 = true).
  { intros H. destruct (IH H) as (f & m & _ & Hf & Hrest).
    exists f, m. split; [reflexivity | split; [now right | exact Hrest]]. }
  destruct (endsWith (fileName file) ".log") eqn:Hlog; [| now apply Hrest].
  destruct (mtime file) as [modified|] eqn:Hm; [| destruct Hin].
  destruct (Z.ltb_spec maxAge (now - modified)) as [Hold | Hyoung];
    [| now apply Hrest].
  destruct (removable file) eqn:Hr; [| destruct Hin].
  destruct Hin as [<- | Hin]; [| now apply Hrest].
  exists file, modified. repeat split; auto. now left.
Qed.

(** X21: when every log file of the listing can be examined and removed,
    [cleanupOldLogs] unlinks exactly the files whose name ends in [.log]
    and that are older than the maximum age, in the order of the
    listing. *)
Theorem cleanupOldLogs_complete
        (files : list DirEntry) (now : Z) (maxAgeDays : option Z) :
  (forall file, In file files -> endsWith (fileName file) ".log" = true ->
                mtime file <> None /\ removable file = true) ->
  cleanupOldLogs (Some files) now maxAgeDays
  = map fileName
        (filter (fun file =>
                   endsWith (fileName file) ".log"
                   && match mtime file with
                      | Some modified =>
                          (maxAgeOf (match maxAgeDays with
                                     | Some d => d
                                     | None => 30
                                     end) <? now - modified)%Z
                      | None => false
                      end)
                files).
Proof.
  unfold cleanupOldLogs. set (maxAge := maxAgeOf _). intros Hok.
  induction files as [|file files IH]; [reflexivity |].
  assert (IH' := IH (fun f Hf => Hok f (or_intror Hf))).
  cbn [sweep filter].
  destruct (endsWith (fileName file) ".log") eqn:Hlog; cbn [andb];
    [| exact IH'].
  destruct (Hok file (or_introl eq_refl) Hlog) as [Hm Hr].
  destruct (mtime file) as [modified|]; [| congruence].
  destruct (maxAge <? now - modified)%Z; [| exact IH'].
  rewrite Hr. cbn [map]. now rewrite IH'.
Qed.

(** X22: a failure stops the sweep.  When a file whose name ends in
    [.log] cannot be examined, or is old and cannot be removed, no file
    listed after it is unlinked: what is unlinked comes from the files
    listed before it and does not depend on what follows. *)
Theorem cleanupOldLogs_stops_at_failure
        (before after : list DirEntry) (bad : DirEntry) (now maxAge : Z) :
  endsWith (fileName bad) ".log" = true ->
  mtime bad = None
  \/ (exists modified, mtime bad = Some modified
                       /\ (maxAge < now - modified)%Z
                       /\ removable bad = false) ->
  sweep (before ++ bad :: after) now maxAge = sweep (before ++ [bad]) now maxAge
  /\ forall name, In name (sweep (before ++ bad :: after) now maxAge) ->
                  In name (map fileName before).
Proof.
  intros Hlog Hbad.
  assert (Hstop : forall rest, sweep (bad :: rest) now maxAge = []).
  { intros rest. cbn [sweep]. rewrite Hlog.
    destruct Hbad as [-> | (modified & -> & Hold & ->)]; [reflexivity |].
    apply Z.ltb_lt in Hold. now rewrite Hold. }
  induction before as [|file before [IHeq IHin]]; cbn [app].
  - rewrite !Hstop. split; [reflexivity | intros name []].
  - cbn [sweep map].
    destruct (endsWith (fileName file) ".log");
      [| split; [exact IHeq | intros name H; right; now apply IHin]].
    destruct (mtime file) as [modified|]; [| split; [reflexivity | intros name []]].
    destruct (maxAge <? now - modified)%Z;
      [| split; [exact IHeq | intros name H; right; now apply IHin]].
    destruct (removable file); [| split; [reflexivity | intros name []]].
    split; [now rewrite IHeq |].
    intros name [<- | H]; [now left | right; now apply IHin].
Qed.

End LlmLoggerFacts.

(** ** The editor *)

(** X23: the editor asks for an analysis exactly when its button is
    enabled, and then with the trimmed message, which is not empty and
    has no white space left to trim; the keyboard shortcut obeys the same
    guard, so a blank message is never sent and nothing is sent while an
    analysis is running. *)
Theorem handleAnalyze_guard (message : string) (isLoading : bool) :
  (EditorPanel.handleAnalyze message isLoading = None
   <-> EditorPanel.buttonDisabled message isLoading = true)
  /\ (forall sent,
        EditorPanel.handleAnalyze message isLoading = Some sent ->
        sent = trim message /\ sent <> "" /\ trim sent = sent
        /\ isLoading = false)
  /\ (forall e sent,
        snd (EditorPanel.handleKeyDown e message isLoading) = Some sent ->
        EditorPanel.buttonDisabled message isLoading = false
        /\ fst (EditorPanel.handleKeyDown e message isLoading) = true).
Proof.
  unfold EditorPanel.handleKeyDown, EditorPanel.handleAnalyze,
    EditorPanel.buttonDisabled.
  split; [| split].
  - destruct (truthy (trim message)), isLoading; cbn; split; congruence.
  - intros sent H.
    destruct (truthy (trim message)) eqn:Ht; destruct isLoading;
      cbn in H; try discriminate H.
    inversion H; subst. repeat split.
    + intros E. rewrite E in Ht. discriminate Ht.
    + apply trim_idempotent.
  - intros e sent H.
    destruct ((EditorPanel.ctrlKey e || EditorPanel.metaKey e)
              && (EditorPanel.key e =? "Enter")%string);
      cbn [snd fst] in H |- *; [| discriminate H].
    destruct (truthy (trim message)), isLoading; cbn in H |- *;
      try discriminate H; split; reflexivity.
Qed.

(** ** The further theorems at work *)

Lemma isTruncated_exactly_witness :
  trim " Key points: [ " = "Key points: " ++ String "[" ""
  /\ isTruncated " Key points: [ " = true.
Proof.
  split; [reflexivity |].
  apply (proj2 (isTruncated_exactly " Key points: [ ")).
  exists "Key points: ", "["%char. split; [reflexivity |].
  right. split; [reflexivity |]. right. cbn. lia.
Defined.

Lemma validateNoTruncation_reports_index_witness :
  validateNoTruncation
    (JObject [("tags", JArray [JString "Polite."; JString "Slightly pus{";
                               JString "Direct."])]) "root"
  = Throw (ThrowError (mkError
      ("Truncated text detected at root.tags[1]: " ++ dquote
       ++ "Slightly pus{..." ++ dquote))).
Proof.
  apply (validateNoTruncation_reports_index
           "root" "tags" "Slightly pus{" [JString "Polite."] [JString "Direct."]).
  - intros item p [<- | []]. reflexivity.
  - reflexivity.
Defined.

Lemma generateWithSchema_model_failure_witness :
  let st := Scenario.start [] in
  fst (Scenario.generate "Analyze." st)
  = Throw (ThrowError (mkError "Object is disposed"))
  /\ grammarParsesOf (trace (snd (Scenario.generate "Analyze." st))) = [].
Proof.
  cbv zeta.
  destruct (generateWithSchema_model_failure
              Scenario.validationLib Scenario.intentGrammar
              Scenario.intentValidator Scenario.deps Scenario.noOptions
              (Some Intent) "Analyze." (Scenario.start [])
              (ThrowError (mkError "Object is disposed")) [] eq_refl)
    as (Hr & _ & Hg & _).
  split; [exact Hr | exact Hg].
Defined.

Lemma generateWithSchema_no_fallback_witness :
  let st := Scenario.start [Return ""] in
  fst (Scenario.generate "Analyze." st) = Throw Scenario.syntaxError
  /\ manualParsesOf (trace (snd (Scenario.generate "Analyze." st))) = [].
Proof.
  cbv zeta.
  exact (generateWithSchema_no_fallback
           Scenario.validationLib Scenario.intentGrammar
           Scenario.intentValidator Scenario.deps Scenario.noOptions
           (Some Intent) "Analyze." "" (Scenario.start [Return ""])
           Scenario.syntaxError [] eq_refl eq_refl (or_introl eq_refl)).
Defined.

Lemma generateWithSchema_accepts_witness :
  let st := Scenario.start [Return (Scenario.intentText Scenario.complete)] in
  fst (Scenario.generate "Analyze." st)
  = Return (Scenario.intentValue Scenario.complete)
  /\ manualParsesOf (trace (snd (Scenario.generate "Analyze." st))) = [].
Proof.
  cbv zeta.
  destruct (generateWithSchema_accepts
              Scenario.validationLib Scenario.intentGrammar
              Scenario.intentValidator Scenario.deps Scenario.noOptions
              (Some Intent) "Analyze."
              (Scenario.intentText Scenario.complete)
              (Scenario.start [Return (Scenario.intentText Scenario.complete)])
              (Scenario.intentValue Scenario.complete) []
              eq_refl ltac:(vm_compute; reflexivity) eq_refl
              ltac:(vm_compute; reflexivity))
    as (Hr & _ & _ & Hm).
  split; [exact Hr | exact Hm].
Defined.

Lemma generateWithSchema_thrown_errors_witness :
  let st := Scenario.start [Return (Scenario.intentText "")] in
  fst (Scenario.generate "Analyze." st)
  = Throw (ThrowError (mkError
      "Validation failed: /primary: must NOT have fewer than 1 characters"))
  /\ validate Scenario.intentValidator (Scenario.intentValue "") = false.
Proof.
  cbv zeta. split; [vm_compute; reflexivity |].
  destruct (generateWithSchema_thrown_errors
              Scenario.validationLib Scenario.intentGrammar
              Scenario.intentValidator Scenario.deps Scenario.noOptions
              (Some Intent) "Analyze."
              (Scenario.start [Return (Scenario.intentText "")])
              (ThrowError (mkError
                 "Validation failed: /primary: must NOT have fewer than 1 characters"))
              ltac:(vm_compute; reflexivity))
    as [_ | _]; reflexivity.
Defined.

Lemma generateWithSchema_rejection_overridden_witness :
  let st := Scenario.start [Return (Scenario.intentText Scenario.cutOff)] in
  validateNoTruncation (Scenario.intentValue Scenario.cutOff) "root"
  = Throw (ThrowError (mkError
             (truncationMessage "root.primary" Scenario.cutOff)))
  /\ fst (Scenario.generate "Analyze." st)
     = Return (Scenario.intentValue Scenario.cutOff).
Proof.
  cbv zeta. split; [vm_compute; reflexivity |].
  refine (proj1 (generateWithSchema_rejection_overridden
                   Scenario.validationLib Scenario.intentGrammar
                   Scenario.intentValidator Scenario.deps Scenario.noOptions
                   (Some Intent) "Analyze."
                   (Scenario.intentText Scenario.cutOff)
                   (Scenario.start [Return (Scenario.intentText Scenario.cutOff)])
                   (Scenario.intentValue Scenario.cutOff) []
                   (mkError ("Response appears truncated: "
                             ++ truncationMessage "root.primary" Scenario.cutOff))
                   eq_refl eq_refl ltac:(vm_compute; reflexivity) _)).
  right. split; [reflexivity |].
  exists (ThrowError (mkError (truncationMessage "root.primary" Scenario.cutOff))).
  split; vm_compute; reflexivity.
Defined.

Lemma logging_is_observational_witness :
  let silent : GeneratorDependencies Scenario.Script :=
    {| contextSequence := Scenario.scriptedModel;
       contextSize := 2048;
       sessionId := None;
       logger := false |} in
  let st := Scenario.start [Return (Scenario.intentText "");
                            Return (Scenario.intentText Scenario.complete)] in
  fst (generateWithRetry Scenario.validationLib Scenario.intentGrammar
         Scenario.intentValidator Scenario.deps Scenario.noOptions
         (Some Intent) Scenario.intentPrompt Scenario.retryPrompt
         "Can you send the document?" None st)
  = fst (generateWithRetry Scenario.validationLib Scenario.intentGrammar
           Scenario.intentValidator silent Scenario.noOptions
           (Some Intent) Scenario.intentPrompt Scenario.retryPrompt
           "Can you send the document?" None st).
Proof.
  cbv zeta.
  exact (proj1 (proj2 (logging_is_observational
           Scenario.validationLib Scenario.intentGrammar
           Scenario.intentValidator Scenario.noOptions (Some Intent)
           Scenario.intentPrompt Scenario.retryPrompt
           "Can you send the document?" None
           Scenario.deps
           {| contextSequence := Scenario.scriptedModel;
              contextSize := 2048;
              sessionId := None;
              logger := false |}
           (Scenario.start [Return (Scenario.intentText "");
                            Return (Scenario.intentText Scenario.complete)])
           (Scenario.start [Return (Scenario.intentText "");
                            Return (Scenario.intentText Scenario.complete)])
           eq_refl eq_refl eq_refl))).
Defined.

Lemma generateWithRetry_returns_validated_witness :
  let st := Scenario.start [Return (Scenario.intentText "");
                            Return (Scenario.intentText Scenario.complete)] in
  fst (Scenario.generateRetrying "Can you send the document?" st)
  = Return (Scenario.intentValue Scenario.complete)
  /\ validate Scenario.intentValidator (Scenario.intentValue Scenario.complete)
     = true.
Proof.
  cbv zeta. split; [vm_compute; reflexivity |].
  exact (generateWithRetry_returns_validated
           Scenario.validationLib Scenario.intentGrammar
           Scenario.intentValidator Scenario.noOptions (Some Intent)
           Scenario.intentPrompt Scenario.retryPrompt
           "Can you send the document?" None Scenario.deps
           (Scenario.start [Return (Scenario.intentText "");
                            Return (Scenario.intentText Scenario.complete)])
           (Scenario.intentValue Scenario.complete)
           ltac:(vm_compute; reflexivity)).
Defined.

Lemma generateWithRetry_throws_final_only_witness :
  let st := Scenario.start [] in
  fst (Scenario.generateRetrying "Can you send the document?" st)
  = Throw (ThrowError (mkError "Failed after 2 attempts: Object is disposed"))
  /\ length (modelPromptsOf
               (trace (snd (Scenario.generateRetrying
                              "Can you send the document?" st)))) = 2.
Proof.
  cbv zeta. split; [vm_compute; reflexivity |].
  exact (proj2 (generateWithRetry_throws_final_only
           Scenario.validationLib Scenario.intentGrammar
           Scenario.intentValidator Scenario.noOptions (Some Intent)
           Scenario.intentPrompt Scenario.retryPrompt
           "Can you send the document?" None Scenario.deps
           (Scenario.start [])
           (ThrowError (mkError "Failed after 2 attempts: Object is disposed"))
           ltac:(vm_compute; reflexivity))).
Defined.

Lemma fresh_logger_header_witness :
  let created :=
    fst (LlmLogger.getLLMLogger (fun p => p) None (Some "./logs")
                                (Some "qwen3.gguf")) in
  LlmLogger.modelPath created = ""
  /\ includes (LlmLogger.logHeader created "s1" "2026-01-01T00:00:00.000Z")
              ("Model Path: N/A" ++ LlmLogger.nl) = true.
Proof.
  cbv zeta. split; [reflexivity |].
  exact (proj1 (proj2 (LlmLoggerFacts.fresh_logger_header
           (fun p => p) (Some "./logs") None "qwen3.gguf" "s1"
           "2026-01-01T00:00:00.000Z" eq_refl))).
Defined.

Lemma cleanupOldLogs_only_old_logs_witness :
  let files :=
    [ {| LlmLogger.fileName := "session-a.log";
         LlmLogger.mtime := Some 0%Z; LlmLogger.removable := true |};
      {| LlmLogger.fileName := "notes.txt";
         LlmLogger.mtime := Some 0%Z; LlmLogger.removable := true |};
      {| LlmLogger.fileName := "session-b.log";
         LlmLogger.mtime := Some 2592000000%Z; LlmLogger.removable := true |} ] in
  LlmLogger.cleanupOldLogs (Some files) 5184000000 None = ["session-a.log"]
  /\ exists file,
       In file files /\ LlmLogger.fileName file = "session-a.log"
       /\ LlmLogger.mtime file = Some 0%Z.
Proof.
  cbv zeta. split; [vm_compute; reflexivity |].
  destruct (LlmLoggerFacts.cleanupOldLogs_only_old_logs
              (Some [ {| LlmLogger.fileName := "session-a.log";
                         LlmLogger.mtime := Some 0%Z;
                         LlmLogger.removable := true |};
                      {| LlmLogger.fileName := "notes.txt";
                         LlmLogger.mtime := Some 0%Z;
                         LlmLogger.removable := true |};
                      {| LlmLogger.fileName := "session-b.log";
                         LlmLogger.mtime := Some 2592000000%Z;
                         LlmLogger.removable := true |} ])
              5184000000 None "session-a.log"
              ltac:(vm_compute; left; reflexivity))
    as (files & file & modified & Hl & Hin & Hname & _ & Hm & _).
  inversion Hl; subst files.
  destruct Hin as [<- | [<- | [<- | []]]]; cbn in Hname; try discriminate Hname.
  eexists. split; [left; reflexivity | split; reflexivity].
Defined.

Lemma cleanupOldLogs_complete_witness :
  LlmLogger.cleanupOldLogs
    (Some [ {| LlmLogger.fileName := "session-a.log";
               LlmLogger.mtime := Some 0%Z; LlmLogger.removable := true |};
            {| LlmLogger.fileName := "notes.txt";
               LlmLogger.mtime := None; LlmLogger.removable := false |} ])
    2592000001 (Some 30%Z)
  = ["session-a.log"].
Proof.
  apply (LlmLoggerFacts.cleanupOldLogs_complete
           [ {| LlmLogger.fileName := "session-a.log";
                LlmLogger.mtime := Some 0%Z; LlmLogger.removable := true |};
             {| LlmLogger.fileName := "notes.txt";
                LlmLogger.mtime := None; LlmLogger.removable := false |} ]
           2592000001 (Some 30%Z)).
  intros file [<- | [<- | []]] Hlog.
  - split; [discriminate | reflexivity].
  - vm_compute in Hlog. discriminate Hlog.
Defined.

Lemma cleanupOldLogs_stops_at_failure_witness :
  LlmLogger.sweep
    [ {| LlmLogger.fileName := "gone.log";
         LlmLogger.mtime := None; LlmLogger.removable := true |};
      {| LlmLogger.fileName := "session-a.log";
         LlmLogger.mtime := Some 0%Z; LlmLogger.removable := true |} ]
    2592000001 (LlmLogger.maxAgeOf 30)
  = [].
Proof.
  destruct (LlmLoggerFacts.cleanupOldLogs_stops_at_failure
              []
              [ {| LlmLogger.fileName := "session-a.log";
                   LlmLogger.mtime := Some 0%Z; LlmLogger.removable := true |} ]
              {| LlmLogger.fileName := "gone.log";
                 LlmLogger.mtime := None; LlmLogger.removable := true |}
              2592000001 (LlmLogger.maxAgeOf 30)
              eq_refl (or_introl eq_refl)) as [Heq _].
  exact Heq.
Defined.

Lemma handleAnalyze_guard_witness :
  EditorPanel.handleAnalyze "  Can you send it?  " false
  = Some "Can you send it?"
  /\ trim "Can you send it?" = "Can you send it?"
  /\ EditorPanel.handleAnalyze "   " false = None.
Proof.
  split; [reflexivity | split].
  - exact (proj1 (proj2 (proj2
             (proj1 (proj2 (handleAnalyze_guard "  Can you send it?  " false))
                    "Can you send it?" eq_refl)))).
  - apply (proj2 (proj1 (handleAnalyze_guard "   " false))). reflexivity.
Defined.

(** X24: the time stamp that goes into the name of a log file keeps its
    length and holds neither a colon nor a dot. *)
Theorem dashed_file_name_safe (iso : string) :
  String.length (LlmLogger.dashed iso) = String.length iso
  /\ countChar ":" (LlmLogger.dashed iso) = 0
  /\ countChar "." (LlmLogger.dashed iso) = 0.
Proof.
  induction iso as [|c iso (IHlen & IHcolon & IHdot)]; [repeat split |].
  cbn [LlmLogger.dashed String.length countChar].
  rewrite IHlen, IHcolon, IHdot. repeat split.
  - destruct (Ascii.eqb c ":") eqn:E1; [reflexivity |].
    destruct (Ascii.eqb c ".") eqn:E2; [reflexivity |].
    cbn [orb]. now rewrite E1.
  - destruct (Ascii.eqb c ":") eqn:E1; [reflexivity |].
    destruct (Ascii.eqb c ".") eqn:E2; [reflexivity |].
    cbn [orb]. now rewrite E2.
Qed.

(** ** The request, and the text of log entries, on concrete inputs *)

Lemma generateWithSchema_request_witness :
  let quote := String "034"%char EmptyString in
  let answer := Scenario.intentText Scenario.complete in
  world (snd (generateWithSchema
                Scenario.validationLib Scenario.intentGrammar
                Scenario.intentValidator (Scenario.recordingDeps answer)
                Scenario.noOptions (Some Alternatives)
                "Rewrite: Send it." (mkState [] [])))
  = [ {| Scenario.requestSystemPrompt :=
           "You are a communication analysis expert specializing in rewriting messages. You MUST generate complete alternatives with ALL fields filled in. NEVER return empty strings ("
           ++ quote ++ quote ++
           ") for any field. Every badge, text, reason, and tag must contain actual content. CRITICAL: All text fields must be COMPLETE - never truncate mid-word or mid-sentence. Always respond with valid, complete JSON only.";
         Scenario.requestPrompt := "Rewrite: Send it.";
         Scenario.requestMaxTokens := 2048;
         Scenario.requestTemperature := 7 # 10 |} ]
  /\ world (snd (generateWithSchema
                   Scenario.validationLib Scenario.intentGrammar
                   Scenario.intentValidator (Scenario.recordingDeps answer)
                   {| maxTokens := Some 512; temperature := Some (2 # 10) |}
                   (Some Intent)
                   "Analyze the intent of: Send it." (mkState [] [])))
     = [ {| Scenario.requestSystemPrompt :=
              "You are a communication analysis expert. Always respond with valid, complete JSON only. Generate all required items - do not return empty arrays or incomplete responses. CRITICAL: All text fields must be COMPLETE - never truncate mid-word or mid-sentence. Every field must end with complete words and proper punctuation.";
            Scenario.requestPrompt := "Analyze the intent of: Send it.";
            Scenario.requestMaxTokens := 512;
            Scenario.requestTemperature := 2 # 10 |} ].
Proof.
  intros quote answer. split.
  - destruct (generateWithSchema_request
                Scenario.validationLib Scenario.intentGrammar
                Scenario.intentValidator (Scenario.recordingDeps answer)
                Scenario.noOptions (Some Alternatives)
                "Rewrite: Send it." (mkState [] [])) as [Hworld _].
    exact Hworld.
  - destruct (generateWithSchema_request
                Scenario.validationLib Scenario.intentGrammar
                Scenario.intentValidator (Scenario.recordingDeps answer)
                {| maxTokens := Some 512; temperature := Some (2 # 10) |}
                (Some Intent)
                "Analyze the intent of: Send it." (mkState [] [])) as [Hworld _].
    exact Hworld.
Defined.

Lemma logResponse_text_witness :
  let nl := LlmLogger.nl in
  let long := string_of_list_ascii (repeat "a"%char (S 5000)) in
  LlmLogger.formatLogEntry
    (fun _ => "0.7")
    (LlmLogger.responseEntry "2025-01-01T00:00:00.000Z" "Qwen3-4B" Intent
                             ("{" ++ nl ++ "}") None)
  = "[2025-01-01T00:00:00.000Z] RESPONSE (intent)" ++ nl
    ++ "Model: Qwen3-4B" ++ nl
    ++ "Response:" ++ nl
    ++ "  {" ++ nl
    ++ "  }" ++ nl
    ++ "---"
  /\ LlmLogger.formatLogEntry
       (fun _ => "0.7")
       (LlmLogger.responseEntry "2025-01-01T00:00:00.000Z" "Qwen3-4B" Tone
                                long (Some 2))
     = "[2025-01-01T00:00:00.000Z] RESPONSE (tone) [Attempt 2]" ++ nl
       ++ "Model: Qwen3-4B" ++ nl
       ++ "Response:" ++ nl
       ++ "  " ++ string_of_list_ascii (repeat "a"%char 5000) ++ nl
       ++ "    ... (truncated)" ++ nl
       ++ "---".
Proof.
  intros nl long. split.
  - rewrite (LlmLoggerFacts.logResponse_text
               (fun _ => "0.7") "2025-01-01T00:00:00.000Z" "Qwen3-4B" Intent
               ("{" ++ nl ++ "}") None
               ltac:(vm_compute; intros H; discriminate H)).
    vm_compute. reflexivity.
  - rewrite (LlmLoggerFacts.logResponse_text
               (fun _ => "0.7") "2025-01-01T00:00:00.000Z" "Qwen3-4B" Tone
               long (Some 2)
               ltac:(vm_compute; intros H; discriminate H)).
    vm_compute. reflexivity.
Defined.

Lemma formatLogEntry_frame_witness :
  let nl := LlmLogger.nl in
  let text :=
    LlmLogger.formatLogEntry
      (fun _ => "0.7")
      (LlmLogger.errorEntry "2025-01-01T00:00:00.000Z" "Qwen3-4B" Intent
                            "Attempt 1 failed: Unexpected token in JSON"
                            (Some 1)) in
  String.prefix ("[2025-01-01T00:00:00.000Z] ERROR (intent) [Attempt 1]" ++ nl)
                text = true
  /\ endsWith text (nl ++ "---") = true
  /\ text
     = "[2025-01-01T00:00:00.000Z] ERROR (intent) [Attempt 1]" ++ nl
       ++ "Model: Qwen3-4B" ++ nl
       ++ "Error: Attempt 1 failed: Unexpected token in JSON" ++ nl
       ++ "---".
Proof.
  intros nl text.
  destruct (LlmLoggerFacts.formatLogEntry_frame
              (fun _ => "0.7")
              (LlmLogger.errorEntry "2025-01-01T00:00:00.000Z" "Qwen3-4B" Intent
                                    "Attempt 1 failed: Unexpected token in JSON"
                                    (Some 1))) as [Hhead Htail].
  split; [exact Hhead | split; [exact Htail | reflexivity]].
Defined.
